(** * WasedaTime backend: deployment description

    A shallow embedding of the construct classes of
    [lib/constructs/common/lambda-functions.ts] (function groups, their IAM
    roles and environment wiring) and of the Amplify build settings
    (micro-app and web-app build specifications), followed by the
    properties of the deployment description that are proved about them.

    The embedding follows the TypeScript sources statement by statement:
    every [new C(this, id, props)] registers a child named [id] in the
    enclosing construct, which is the one place where construction can
    throw; [addEnvironment] updates the function it is called on. *)

From Stdlib Require Import ZArith Ascii String.
From stdpp Require Import gmap strings list fin_maps.

#[local] Set Warnings "-register-all".

Local Open Scope Z_scope.
Local Open Scope string_scope.

(** ** JavaScript values used by the sources *)

(** A value read from [process.env]: a string, or [undefined] when the
    variable is not set.  The non-null assertion [process.env.X!] is erased
    by the compiler and leaves the value as it is. *)
Inductive JsString : Type :=
| Undefined
| Str (s : string).

#[global] Instance JsString_eq_dec : EqDecision JsString.
Proof. solve_decision. Defined.

Definition process_env : Type := gmap string string.

Definition getenv (env : process_env) (name : string) : JsString :=
  match env !! name with
  | Some v => Str v
  | None => Undefined
  end.

(** The double quote character, for the shell commands that contain it. *)
Definition dq : string := String (Ascii.ascii_of_nat 34) EmptyString.

(** ** String helpers *)

Definition has_prefix (p s : string) : bool := String.prefix p s.

Definition has_suffix (suf s : string) : bool :=
  let n := String.length s in
  let m := String.length suf in
  (m <=? n)%nat && String.eqb (String.substring (n - m) m s) suf.



(** ** IAM: managed policies and roles *)

Module Iam.

Record ManagedPolicy : Type := {
  policyId : string;
  managedPolicyArn : string
}.

Record LazyRole : Type := {
  roleId : string;
  assumedBy : string;
  description : string;
  path : string;
  roleName : string;
  managedPolicies : list ManagedPolicy
}.

#[global] Instance ManagedPolicy_eq_dec : EqDecision ManagedPolicy.
Proof. solve_decision. Defined.

#[global] Instance LazyRole_eq_dec : EqDecision LazyRole.
Proof. solve_decision. Defined.

End Iam.

(** ** Lambda functions *)

Inductive Runtime : Type := PYTHON_3_8 | NODEJS_12_X.

Inductive RetentionDays : Type := ONE_MONTH | SIX_MONTHS.

Inductive Duration : Type := seconds (n : Z).

(** [Function] takes [code: Code.fromAsset(dir)] and a handler;
    [PythonFunction] takes [entry: dir]. *)
Inductive CodeSource : Type :=
| Code_fromAsset (dir : string)
| entry (dir : string).

#[global] Instance Runtime_eq_dec : EqDecision Runtime.
Proof. solve_decision. Defined.
#[global] Instance RetentionDays_eq_dec : EqDecision RetentionDays.
Proof. solve_decision. Defined.
#[global] Instance Duration_eq_dec : EqDecision Duration.
Proof. solve_decision. Defined.
#[global] Instance CodeSource_eq_dec : EqDecision CodeSource.
Proof. solve_decision. Defined.

Module Lambda.

(** The props object literal handed to [new Function] or
    [new PythonFunction]; [handler], [role] and [environment] are the
    keys that some of the literals leave out. *)
Record FunctionProps : Type := {
  code : CodeSource;
  handler : option string;
  description : string;
  functionName : string;
  logRetention : RetentionDays;
  memorySize : Z;
  role : option Iam.LazyRole;
  runtime : Runtime;
  timeout : Duration;
  environment : option (gmap string string)
}.

(** A constructed function: its construct id, the props it was built
    from, and its own environment table.  The constructor enters every
    pair of [props.environment] into the table with [addEnvironment], so
    the table is a copy and the props object is not written to later. *)
Record LambdaFunction : Type := {
  fnId : string;
  props : FunctionProps;
  env : gmap string JsString
}.

End Lambda.

Definition fn_name (f : Lambda.LambdaFunction) : string :=
  Lambda.functionName (Lambda.props f).
Definition fn_role (f : Lambda.LambdaFunction) : option Iam.LazyRole :=
  Lambda.role (Lambda.props f).
Definition fn_memory (f : Lambda.LambdaFunction) : Z :=
  Lambda.memorySize (Lambda.props f).

(** ** The construct tree and construction that can throw *)

Inductive Construct : Type :=
| PolicyC (p : Iam.ManagedPolicy)
| RoleC (r : Iam.LazyRole)
| FunctionC (f : Lambda.LambdaFunction)
| GroupC (children : list (string * Construct)).

(** The children of one construct, oldest first. *)
Definition Scope : Type := list (string * Construct).

Inductive ConstructError : Type :=
| DuplicateConstructName (id : string).

Inductive Result (A : Type) : Type :=
| Throw (e : ConstructError)
| Ok (a : A).
Arguments Throw {A} e.
Arguments Ok {A} a.

(** A constructor body: runs against the children of [this]. *)
Definition Build (A : Type) : Type := Scope -> Result (A * Scope).

#[global] Instance Build_ret : MRet Build :=
  fun A (a : A) sc => Ok (a, sc).

#[global] Instance Build_bind : MBind Build :=
  fun A B (k : A -> Build B) (m : Build A) sc =>
    match m sc with
    | Throw e => Throw e
    | Ok (a, sc') => k a sc'
    end.

Definition has_child (id : string) (sc : Scope) : bool :=
  existsb (fun c => String.eqb (fst c) id) sc.

(** [new C(this, id, ...)]: a second child of the same name throws. *)
Definition addChild (id : string) (c : Construct) : Build unit :=
  fun sc =>
    if has_child id sc then Throw (DuplicateConstructName id)
    else Ok (tt, (sc ++ [(id, c)])%list).

(** Writing to a construct that is already in the tree. *)
Definition updateChild (id : string) (c : Construct) : Build unit :=
  fun sc =>
    Ok (tt, map (fun e => if String.eqb (fst e) id then (id, c) else e) sc).

(** The body of a subclass constructor: [super(scope, id)] registers the
    group under its parent, and the statements that follow run against
    the group's own, initially empty, children.  The id is taken as it is
    written and the one failure is the clash of names among siblings; what
    the library does besides (it refuses an empty id, rewrites a path
    separator in an id, and adds children of its own under a stack) is
    outside the model. *)
Definition construct {A} (id : string) (body : Build A) : Build A :=
  fun parent =>
    if has_child id parent then Throw (DuplicateConstructName id)
    else
      match body [] with
      | Throw e => Throw e
      | Ok (a, children) => Ok (a, (parent ++ [(id, GroupC children)])%list)
      end.

Definition fromManagedPolicyArn (id arn : string) : Build Iam.ManagedPolicy :=
  let p := {| Iam.policyId := id; Iam.managedPolicyArn := arn |} in
  addChild id (PolicyC p) ;; mret p.

Definition new_LazyRole (r : Iam.LazyRole) : Build Iam.LazyRole :=
  addChild (Iam.roleId r) (RoleC r) ;; mret r.

Definition new_Function (id : string) (p : Lambda.FunctionProps)
  : Build Lambda.LambdaFunction :=
  let f := {| Lambda.fnId := id;
              Lambda.props := p;
              Lambda.env := match Lambda.environment p with
                            | Some vars => Str <$> vars
                            | None => ∅
                            end |} in
  addChild id (FunctionC f) ;; mret f.

(** [PythonFunction] extends [Function]; the two differ in how the code is
    packaged, which the props' [code] field records. *)
Definition new_PythonFunction := new_Function.

(** [f.addEnvironment(key, value)] sets the key in the table of [f] and
    returns [f]. *)
Definition addEnvironment (key : string) (value : JsString)
    (f : Lambda.LambdaFunction) : Build Lambda.LambdaFunction :=
  let f' := {| Lambda.fnId := Lambda.fnId f;
               Lambda.props := Lambda.props f;
               Lambda.env := <[key := value]> (Lambda.env f) |} in
  updateChild (Lambda.fnId f) (FunctionC f') ;; mret f'.

(** ** Configuration modules imported by the constructs *)

(** [configs/common/aws] and [configs/lambda/environment] are imported by
    [lambda-functions.ts]; the constructs use three of their constants,
    which are taken as given here.  The two secrets come from the process
    environment and are [Undefined] when the deployment did not set them. *)
Record Configs : Type := {
  AwsServicePrincipal_LAMBDA : string;
  GOOGLE_API_SERVICE_ACCOUNT_INFO : JsString;
  SLACK_WEBHOOK_URL : JsString
}.

Record FunctionsProps : Type := {
  envVars : gmap string string
}.

Definition basicExecArn : string :=
  "arn:aws:iam::aws:policy/service-role/AWSLambdaBasicExecutionRole".
Definition dynamoReadOnlyArn : string :=
  "arn:aws:iam::aws:policy/AmazonDynamoDBReadOnlyAccess".
Definition dynamoFullAccessArn : string :=
  "arn:aws:iam::aws:policy/AmazonDynamoDBFullAccess".
Definition s3FullAccessArn : string :=
  "arn:aws:iam::aws:policy/AmazonS3FullAccess".

(** ** The function-group classes *)

Module CourseReviews.
Record Fields : Type := {
  getFunction : option Lambda.LambdaFunction;
  postFunction : option Lambda.LambdaFunction;
  patchFunction : option Lambda.LambdaFunction;
  deleteFunction : option Lambda.LambdaFunction
}.
End CourseReviews.

Module Single.
(** The classes with the one field [baseFunction]. *)
Record Fields : Type := {
  baseFunction : option Lambda.LambdaFunction
}.
End Single.

Module Timetable.
Record Fields : Type := {
  getFunction : option Lambda.LambdaFunction;
  postFunction : option Lambda.LambdaFunction;
  patchFunction : option Lambda.LambdaFunction;
  deleteFunction : option Lambda.LambdaFunction;
  importFunction : option Lambda.LambdaFunction;
  exportFunction : option Lambda.LambdaFunction
}.
End Timetable.

Module Syllabus.
Record Fields : Type := {
  getFunction : option Lambda.LambdaFunction
}.
End Syllabus.

Section Constructs.

Variable cfg : Configs.

Definition servicePath : string :=
  "/service-role/" ++ AwsServicePrincipal_LAMBDA cfg ++ "/".

Definition CourseReviewsFunctions (id : string) (props : FunctionsProps)
  : Build CourseReviews.Fields :=
  construct id (
    basic ← fromManagedPolicyArn "basic-exec" basicExecArn;
    readOnly ← fromManagedPolicyArn "db-read-only" dynamoReadOnlyArn;
    dynamoDBReadRole ← new_LazyRole {|
      Iam.roleId := "dynamo-read-role";
      Iam.assumedBy := AwsServicePrincipal_LAMBDA cfg;
      Iam.description :=
        "Allow lambda function to perform crud operation on dynamodb";
      Iam.path := servicePath;
      Iam.roleName := "dynamodb-lambda-read";
      Iam.managedPolicies := [basic; readOnly] |};
    basic1 ← fromManagedPolicyArn "basic-exec1" basicExecArn;
    fullAccess ← fromManagedPolicyArn "db-full-access" dynamoFullAccessArn;
    dynamoDBPutRole ← new_LazyRole {|
      Iam.roleId := "dynamo-put-role";
      Iam.assumedBy := AwsServicePrincipal_LAMBDA cfg;
      Iam.description :=
        "Allow lambda function to perform crud operation on dynamodb";
      Iam.path := servicePath;
      Iam.roleName := "dynamodb-lambda-write";
      Iam.managedPolicies := [basic1; fullAccess] |};
    getFunction ← new_Function "get-reviews" {|
      Lambda.code := Code_fromAsset "src/lambda/get-reviews";
      Lambda.handler := Some "index.handler";
      Lambda.description := "Get course reviews from the database.";
      Lambda.functionName := "get-course-reviews";
      Lambda.logRetention := ONE_MONTH;
      Lambda.memorySize := 128;
      Lambda.role := Some dynamoDBReadRole;
      Lambda.runtime := PYTHON_3_8;
      Lambda.timeout := seconds 3;
      Lambda.environment := Some (envVars props) |};
    postFunction ← new_PythonFunction "post-review" {|
      Lambda.code := entry "src/lambda/post-review";
      Lambda.handler := None;
      Lambda.description := "Save course reviews into the database.";
      Lambda.functionName := "post-course-review";
      Lambda.logRetention := ONE_MONTH;
      Lambda.memorySize := 128;
      Lambda.role := Some dynamoDBPutRole;
      Lambda.runtime := PYTHON_3_8;
      Lambda.timeout := seconds 5;
      Lambda.environment := Some (envVars props) |}
      ≫= addEnvironment "GOOGLE_API_SERVICE_ACCOUNT_INFO"
            (GOOGLE_API_SERVICE_ACCOUNT_INFO cfg);
    patchFunction ← new_PythonFunction "patch-review" {|
      Lambda.code := entry "src/lambda/patch-review";
      Lambda.handler := None;
      Lambda.description := "Update course reviews in the database.";
      Lambda.functionName := "patch-course-review";
      Lambda.logRetention := ONE_MONTH;
      Lambda.memorySize := 128;
      Lambda.role := Some dynamoDBPutRole;
      Lambda.runtime := PYTHON_3_8;
      Lambda.timeout := seconds 5;
      Lambda.environment := Some (envVars props) |}
      ≫= addEnvironment "GOOGLE_API_SERVICE_ACCOUNT_INFO"
            (GOOGLE_API_SERVICE_ACCOUNT_INFO cfg);
    deleteFunction ← new_PythonFunction "delete-review" {|
      Lambda.code := entry "src/lambda/delete-review";
      Lambda.handler := None;
      Lambda.description := "Delete course reviews in the database.";
      Lambda.functionName := "delete-course-review";
      Lambda.logRetention := ONE_MONTH;
      Lambda.memorySize := 128;
      Lambda.role := Some dynamoDBPutRole;
      Lambda.runtime := PYTHON_3_8;
      Lambda.timeout := seconds 3;
      Lambda.environment := Some (envVars props) |};
    mret {| CourseReviews.getFunction := Some getFunction;
            CourseReviews.postFunction := Some postFunction;
            CourseReviews.patchFunction := Some patchFunction;
            CourseReviews.deleteFunction := Some deleteFunction |}).

Definition SyllabusScraper (id : string) (props : FunctionsProps)
  : Build Single.Fields :=
  construct id (
    basic ← fromManagedPolicyArn "basic-exec" basicExecArn;
    s3Full ← fromManagedPolicyArn "s3-full-access" s3FullAccessArn;
    s3AccessRole ← new_LazyRole {|
      Iam.roleId := "s3-access-role";
      Iam.assumedBy := AwsServicePrincipal_LAMBDA cfg;
      Iam.description := "Allow lambda function to access s3 buckets";
      Iam.path := servicePath;
      Iam.roleName := "s3-lambda-full-access";
      Iam.managedPolicies := [basic; s3Full] |};
    baseFunction ← new_PythonFunction "base-function" {|
      Lambda.code := entry "src/lambda/syllabus-scraper";
      Lambda.handler := None;
      Lambda.description :=
        "Base function for scraping syllabus data from Waseda University.";
      Lambda.functionName := "syllabus-scraper";
      Lambda.logRetention := SIX_MONTHS;
      Lambda.memorySize := 4096;
      Lambda.role := Some s3AccessRole;
      Lambda.runtime := PYTHON_3_8;
      Lambda.timeout := seconds 210;
      Lambda.environment := Some (envVars props) |};
    mret {| Single.baseFunction := Some baseFunction |}).

(** The three classes below declare [props?: FunctionsProps] and do not
    read it. *)
Definition AmplifyStatusPublisher (id : string) (props : option FunctionsProps)
  : Build Single.Fields :=
  construct id (
    baseFunction ← new_Function "base-function" {|
      Lambda.code := Code_fromAsset "src/lambda/amplify-status-publisher";
      Lambda.handler := Some "index.handler";
      Lambda.description :=
        "Forwards Amplify build status message from SNS to Slack Webhook.";
      Lambda.functionName := "amplify-status-publisher";
      Lambda.logRetention := SIX_MONTHS;
      Lambda.memorySize := 128;
      Lambda.role := None;
      Lambda.runtime := NODEJS_12_X;
      Lambda.timeout := seconds 3;
      Lambda.environment := None |}
      ≫= addEnvironment "SLACK_WEBHOOK_URL" (SLACK_WEBHOOK_URL cfg);
    mret {| Single.baseFunction := Some baseFunction |}).

Definition ScraperStatusPublisher (id : string) (props : option FunctionsProps)
  : Build Single.Fields :=
  construct id (
    baseFunction ← new_Function "base-function" {|
      Lambda.code := Code_fromAsset "src/lambda/sfn-status-publisher";
      Lambda.handler := Some "index.handler";
      Lambda.description :=
        "Forwards scraper execution status message from SNS to Slack Webhook.";
      Lambda.functionName := "scraper-status-publisher";
      Lambda.logRetention := SIX_MONTHS;
      Lambda.memorySize := 128;
      Lambda.role := None;
      Lambda.runtime := NODEJS_12_X;
      Lambda.timeout := seconds 3;
      Lambda.environment := None |}
      ≫= addEnvironment "SLACK_WEBHOOK_URL" (SLACK_WEBHOOK_URL cfg);
    mret {| Single.baseFunction := Some baseFunction |}).

Definition PreSignupWasedaMailValidator (id : string)
    (props : option FunctionsProps) : Build Single.Fields :=
  construct id (
    baseFunction ← new_Function "base-function" {|
      Lambda.code := Code_fromAsset "src/lambda/signup-validator";
      Lambda.handler := Some "index.handler";
      Lambda.description :=
        "Validates if the user is signing up using WasedaMail";
      Lambda.functionName := "wasedamail-signup-validator";
      Lambda.logRetention := SIX_MONTHS;
      Lambda.memorySize := 128;
      Lambda.role := None;
      Lambda.runtime := PYTHON_3_8;
      Lambda.timeout := seconds 3;
      Lambda.environment := None |};
    mret {| Single.baseFunction := Some baseFunction |}).

(** [TimetableFunctions] declares six fields; its constructor assigns
    five of them and has no assignment to [this.deleteFunction], which
    stays undefined on the constructed object. *)
Definition TimetableFunctions (id : string) (props : FunctionsProps)
  : Build Timetable.Fields :=
  construct id (
    basic ← fromManagedPolicyArn "basic-exec" basicExecArn;
    readOnly ← fromManagedPolicyArn "db-read-only" dynamoReadOnlyArn;
    dynamoDBReadRole ← new_LazyRole {|
      Iam.roleId := "dynamo-read-role";
      Iam.assumedBy := AwsServicePrincipal_LAMBDA cfg;
      Iam.description :=
        "Allow lambda function to perform crud operation on dynamodb";
      Iam.path := servicePath;
      Iam.roleName := "dynamodb-lambda-read-timetable";
      Iam.managedPolicies := [basic; readOnly] |};
    basic1 ← fromManagedPolicyArn "basic-exec1" basicExecArn;
    fullAccess ← fromManagedPolicyArn "db-full-access" dynamoFullAccessArn;
    dynamoDBPutRole ← new_LazyRole {|
      Iam.roleId := "dynamo-put-role";
      Iam.assumedBy := AwsServicePrincipal_LAMBDA cfg;
      Iam.description :=
        "Allow lambda function to perform crud operation on dynamodb";
      Iam.path := servicePath;
      Iam.roleName := "dynamodb-lambda-write-timetable";
      Iam.managedPolicies := [basic1; fullAccess] |};
    getFunction ← new_Function "get-timetable" {|
      Lambda.code := Code_fromAsset "src/lambda/get-timetable";
      Lambda.handler := Some "index.handler";
      Lambda.description := "Get timetable from the database.";
      Lambda.functionName := "get-timetable";
      Lambda.logRetention := ONE_MONTH;
      Lambda.memorySize := 128;
      Lambda.role := Some dynamoDBReadRole;
      Lambda.runtime := PYTHON_3_8;
      Lambda.timeout := seconds 3;
      Lambda.environment := Some (envVars props) |};
    postFunction ← new_PythonFunction "post-timetable" {|
      Lambda.code := entry "src/lambda/post-timetable";
      Lambda.handler := None;
      Lambda.description := "Save timetable into the database.";
      Lambda.functionName := "post-timetable";
      Lambda.logRetention := ONE_MONTH;
      Lambda.memorySize := 128;
      Lambda.role := Some dynamoDBPutRole;
      Lambda.runtime := PYTHON_3_8;
      Lambda.timeout := seconds 3;
      Lambda.environment := Some (envVars props) |};
    patchFunction ← new_PythonFunction "patch-timetable" {|
      Lambda.code := entry "src/lambda/patch-timetable";
      Lambda.handler := None;
      Lambda.description := "Update timetable in the database.";
      Lambda.functionName := "patch-timetable";
      Lambda.logRetention := ONE_MONTH;
      Lambda.memorySize := 128;
      Lambda.role := Some dynamoDBPutRole;
      Lambda.runtime := PYTHON_3_8;
      Lambda.timeout := seconds 3;
      Lambda.environment := Some (envVars props) |};
    importFunction ← new_PythonFunction "import-timetable" {|
      Lambda.code := entry "src/lambda/import-timetable";
      Lambda.handler := None;
      Lambda.description := "Import timetable from pdf.";
      Lambda.functionName := "import-timetable";
      Lambda.logRetention := ONE_MONTH;
      Lambda.memorySize := 256;
      Lambda.role := None;
      Lambda.runtime := PYTHON_3_8;
      Lambda.timeout := seconds 5;
      Lambda.environment := None |};
    exportFunction ← new_PythonFunction "export-timetable" {|
      Lambda.code := entry "src/lambda/export-timetable";
      Lambda.handler := None;
      Lambda.description := "Export timetable as image.";
      Lambda.functionName := "export-timetable";
      Lambda.logRetention := ONE_MONTH;
      Lambda.memorySize := 512;
      Lambda.role := None;
      Lambda.runtime := PYTHON_3_8;
      Lambda.timeout := seconds 5;
      Lambda.environment := None |};
    mret {| Timetable.getFunction := Some getFunction;
            Timetable.postFunction := Some postFunction;
            Timetable.patchFunction := Some patchFunction;
            Timetable.deleteFunction := None;
            Timetable.importFunction := Some importFunction;
            Timetable.exportFunction := Some exportFunction |}).

Definition SyllabusFunctions (id : string) (props : FunctionsProps)
  : Build Syllabus.Fields :=
  construct id (
    basic ← fromManagedPolicyArn "basic-exec" basicExecArn;
    readOnly ← fromManagedPolicyArn "db-read-only" dynamoReadOnlyArn;
    dynamoDBReadRole ← new_LazyRole {|
      Iam.roleId := "dynamo-read-role";
      Iam.assumedBy := AwsServicePrincipal_LAMBDA cfg;
      Iam.description :=
        "Allow lambda function to perform crud operation on dynamodb";
      Iam.path := servicePath;
      Iam.roleName := "dynamodb-lambda-read-syllabus";
      Iam.managedPolicies := [basic; readOnly] |};
    getFunction ← new_PythonFunction "get-courses" {|
      Lambda.code := entry "src/lambda/get-courses";
      Lambda.handler := None;
      Lambda.description := "Filter courses in the syllabus.";
      Lambda.functionName := "get-courses";
      Lambda.logRetention := ONE_MONTH;
      Lambda.memorySize := 128;
      Lambda.role := Some dynamoDBReadRole;
      Lambda.runtime := PYTHON_3_8;
      Lambda.timeout := seconds 3;
      Lambda.environment := Some (envVars props) |};
    mret {| Syllabus.getFunction := Some getFunction |}).

End Constructs.

(** ** Reading a constructed group *)

(** The roles and the functions among the children of a scope. *)
Definition roles_of (sc : Scope) : list Iam.LazyRole :=
  omap (fun c => match snd c with RoleC r => Some r | _ => None end) sc.

Definition functions_of (sc : Scope) : list Lambda.LambdaFunction :=
  omap (fun c => match snd c with FunctionC f => Some f | _ => None end) sc.

(** A group built under an empty parent: the fields of the object and the
    children registered beneath the group.  Every class of the sources
    registers itself as one group; a builder that registers anything else
    yields what it registered. *)
Definition instantiate {A} (b : Build A) : Result (A * Scope) :=
  match b [] with
  | Ok (a, [(_, GroupC children)]) => Ok (a, children)
  | Ok (a, sc) => Ok (a, sc)
  | Throw e => Throw e
  end.

Definition children_of {A} (b : Build A) : Result Scope :=
  match instantiate b with
  | Ok (_, sc) => Ok sc
  | Throw e => Throw e
  end.

(** The seven construct classes of [lambda-functions.ts]. *)
Inductive Family : Type :=
| CourseReviewsF
| SyllabusScraperF
| AmplifyStatusPublisherF
| ScraperStatusPublisherF
| PreSignupWasedaMailValidatorF
| TimetableF
| SyllabusF.

Definition families : list Family :=
  [CourseReviewsF; SyllabusScraperF; AmplifyStatusPublisherF;
   ScraperStatusPublisherF; PreSignupWasedaMailValidatorF; TimetableF;
   SyllabusF].

Definition family_children (cfg : Configs) (fam : Family) (id : string)
    (props : FunctionsProps) : Result Scope :=
  match fam with
  | CourseReviewsF => children_of (CourseReviewsFunctions cfg id props)
  | SyllabusScraperF => children_of (SyllabusScraper cfg id props)
  | AmplifyStatusPublisherF =>
      children_of (AmplifyStatusPublisher cfg id (Some props))
  | ScraperStatusPublisherF =>
      children_of (ScraperStatusPublisher cfg id (Some props))
  | PreSignupWasedaMailValidatorF =>
      children_of (PreSignupWasedaMailValidator id (Some props))
  | TimetableF => children_of (TimetableFunctions cfg id props)
  | SyllabusF => children_of (SyllabusFunctions cfg id props)
  end.

(** The roles of a family, none when its construction throws. *)
Definition family_roles (cfg : Configs) (fam : Family) (id : string)
    (props : FunctionsProps) : list Iam.LazyRole :=
  match family_children cfg fam id props with
  | Ok sc => roles_of sc
  | Throw _ => []
  end.

Definition family_functions (cfg : Configs) (fam : Family) (id : string)
    (props : FunctionsProps) : list Lambda.LambdaFunction :=
  match family_children cfg fam id props with
  | Ok sc => functions_of sc
  | Throw _ => []
  end.

(** ** Access level of a role and operation of a function *)

Inductive Access : Type := ReadOnly | ReadWrite | BaselineOnly.

#[global] Instance Access_eq_dec : EqDecision Access.
Proof. solve_decision. Defined.

Definition policy_arns (r : Iam.LazyRole) : list string :=
  map Iam.managedPolicyArn (Iam.managedPolicies r).

(** A role is read-write when one of its managed policies is a
    [...FullAccess] policy, read-only when it has a [...ReadOnlyAccess]
    policy and no full-access one. *)
Definition access_of (r : Iam.LazyRole) : Access :=
  if existsb (has_suffix "FullAccess") (policy_arns r) then ReadWrite
  else if existsb (has_suffix "ReadOnlyAccess") (policy_arns r) then ReadOnly
  else BaselineOnly.

Definition has_baseline (r : Iam.LazyRole) : bool :=
  existsb (String.eqb basicExecArn) (policy_arns r).

Module Intent.
Inductive t : Type :=
| retrieve | create | update | delete
| transform | import | export | notify.

#[global] Instance eq_dec : EqDecision t.
Proof. solve_decision. Defined.
End Intent.




(** The distinct roles that the functions of a group are bound to.  A
    role object is a child of the group and is told apart by its construct
    id, which is unique among the children. *)
Definition bound_roles (sc : Scope) : list string :=
  remove_dups (map Iam.roleId (omap fn_role (functions_of sc))).

(** ** Amplify build settings *)

Module BuildSpec.

Record Header : Type := {
  key : string;
  value : string
}.

Record CustomHeader : Type := {
  pattern : string;
  headers : list Header
}.

Record Phase : Type := {
  commands : list string
}.

Record Phases : Type := {
  preBuild : option Phase;
  build : Phase
}.

Record Artifacts : Type := {
  baseDirectory : string;
  files : list string
}.

Record Cache : Type := {
  paths : list string
}.

Record Frontend : Type := {
  phases : Phases;
  artifacts : Artifacts;
  cache : Cache;
  customHeaders : option (list CustomHeader)
}.

Record Application : Type := {
  frontend : Frontend;
  appRoot : string
}.

(** The object handed to [BuildSpec.fromObject]: either a list of
    applications (the micro-apps) or one top-level [frontend]. *)
Inductive t : Type :=
| Applications (version : Z) (applications : list Application)
| SingleFrontend (version : Z) (frontend : Frontend).

#[global] Instance Header_eq_dec : EqDecision Header.
Proof. solve_decision. Defined.

Definition frontends (spec : t) : list Frontend :=
  match spec with
  | Applications _ apps => map frontend apps
  | SingleFrontend _ fe => [fe]
  end.

(** The pre-build commands of a specification, in order. *)
Definition preBuildCommands (spec : t) : list string :=
  concat (map (fun fe =>
    match preBuild (phases fe) with
    | Some ph => commands ph
    | None => []
    end) (frontends spec)).

(** The response headers of a specification: those of every header rule
    of every frontend. *)
Definition responseHeaders (spec : t) : list Header :=
  concat (map (fun fe =>
    match customHeaders fe with
    | Some rules => concat (map headers rules)
    | None => []
    end) (frontends spec)).

End BuildSpec.

Definition bitToken (env : process_env) : JsString := getenv env "BIT_TOKEN".

Definition preBuild : BuildSpec.Phase := {|
  BuildSpec.commands := [
    "npm install -g pnpm";
    "pnpm install --filter ."
  ] |}.

Definition preBuildForFeeds : BuildSpec.Phase := {|
  BuildSpec.commands := [
    "git submodule set-url feeds/public/feeds https://${GITHUB_ACCESS_TOKEN}@github.com/wasedatime/feeds.git";
    "git submodule sync";
    "git submodule init";
    "git submodule update --remote";
    "npm install -g pnpm";
    "pnpm install --filter ."
  ] |}.

Definition prodBuild : BuildSpec.Phase := {|
  BuildSpec.commands := ["pnpm run build"] |}.

Definition devBuild : BuildSpec.Phase := {|
  BuildSpec.commands := [
    "export PREFIX=" ++ dq ++ "${AWS_BRANCH//[\/_]/-}" ++ dq;
    "pnpm run build-dev"
  ] |}.

Definition artifacts : BuildSpec.Artifacts := {|
  BuildSpec.baseDirectory := "/dist";
  BuildSpec.files := ["**/*"] |}.

Definition cache : BuildSpec.Cache := {|
  BuildSpec.paths := ["node_modules/**/*"; "~/.pnpm-store"] |}.

Section MicroApps.

(** [securityHeaders] and [microAppCorsHeader] are imported from
    [./website], which is taken as given. *)
Variables securityHeaders microAppCorsHeader : list BuildSpec.Header.

Definition microAppBuildSpec (name : string) : BuildSpec.t :=
  BuildSpec.Applications 1 [
    {| BuildSpec.frontend := {|
         BuildSpec.phases := {|
           BuildSpec.preBuild :=
             Some (if String.eqb name "feeds" then preBuildForFeeds
                   else preBuild);
           BuildSpec.build := prodBuild |};
         BuildSpec.artifacts := artifacts;
         BuildSpec.cache := cache;
         BuildSpec.customHeaders := Some [
           {| BuildSpec.pattern := "**/*";
              BuildSpec.headers :=
                (securityHeaders ++ microAppCorsHeader)%list |} ] |};
       BuildSpec.appRoot := name |} ].

Definition microAppDevBuildSpec (name : string) : BuildSpec.t :=
  BuildSpec.Applications 1 [
    {| BuildSpec.frontend := {|
         BuildSpec.phases := {|
           BuildSpec.preBuild := Some preBuild;
           BuildSpec.build := devBuild |};
         BuildSpec.artifacts := artifacts;
         BuildSpec.cache := cache;
         BuildSpec.customHeaders := Some [
           {| BuildSpec.pattern := "**/*";
              BuildSpec.headers := microAppCorsHeader |} ] |};
       BuildSpec.appRoot := name |} ].

End MicroApps.

(** ** The web application and the API documentation site *)

Definition branchIs (open close branch script : string) : string :=
  "if " ++ open ++ " " ++ dq ++ "${AWS_BRANCH}" ++ dq ++ " = " ++ branch
    ++ " " ++ close ++ "; then npm run " ++ script ++ "; fi".

Definition contentSecurityPolicy : string :=
  "default-src 'self' 'unsafe-inline' https: data:; script-src 'unsafe-inline' https://*.wasedatime.com/static/js/ https://wasedatime.com/static/js/ https://www.google-analytics.com/;".

Definition cacheControl (pat val : string) : BuildSpec.CustomHeader := {|
  BuildSpec.pattern := pat;
  BuildSpec.headers :=
    [ {| BuildSpec.key := "Cache-Control"; BuildSpec.value := val |} ] |}.

Definition webappBuildSpec : BuildSpec.t :=
  BuildSpec.SingleFrontend 1 {|
    BuildSpec.phases := {|
      BuildSpec.preBuild := Some {| BuildSpec.commands := ["npm ci"] |};
      BuildSpec.build := {| BuildSpec.commands := [
        branchIs "[" "]" (dq ++ "master" ++ dq) "build";
        branchIs "[[" "]]" (dq ++ "release/" ++ dq ++ "*") "build-staging";
        branchIs "[" "]" (dq ++ "develop" ++ dq) "build-dev";
        branchIs "[[" "]]" (dq ++ "feature/" ++ dq ++ "*") "build-dev"
      ] |} |};
    BuildSpec.artifacts := {|
      BuildSpec.baseDirectory := "/build";
      BuildSpec.files := ["**/*"] |};
    BuildSpec.cache := {| BuildSpec.paths := ["node_modules/**/*"] |};
    BuildSpec.customHeaders := Some [
      {| BuildSpec.pattern := "**/*";
         BuildSpec.headers := [
           {| BuildSpec.key := "Strict-Transport-Security";
              BuildSpec.value := "max-age=15552000; includeSubDomains" |};
           {| BuildSpec.key := "X-Frame-Options";
              BuildSpec.value := "SAMEORIGIN" |};
           {| BuildSpec.key := "X-XSS-Protection";
              BuildSpec.value := "1; mode=block" |};
           {| BuildSpec.key := "X-Content-Type-Options";
              BuildSpec.value := "nosniff" |};
           {| BuildSpec.key := "Content-Security-Policy";
              BuildSpec.value := contentSecurityPolicy |};
           {| BuildSpec.key := "X-Content-Security-Policy";
              BuildSpec.value := contentSecurityPolicy |};
           {| BuildSpec.key := "X-WebKit-CSP";
              BuildSpec.value := contentSecurityPolicy |};
           {| BuildSpec.key := "X-Download-Options";
              BuildSpec.value := "noopen" |};
           {| BuildSpec.key := "X-DNS-Prefetch-Control";
              BuildSpec.value := "off" |} ] |};
      cacheControl "**/*.js" "public,max-age=86400,immutable";
      cacheControl "**/*.css" "public,max-age=86400,immutable";
      cacheControl "**/*.png" "public,max-age=2592000,immutable";
      cacheControl "**/*.jpg" "public,max-age=2592000,immutable";
      cacheControl "**/*.ico" "public,max-age=31536000,immutable";
      cacheControl "**/*.svg" "public,max-age=2592000,immutable"
    ] |}.

Definition webappDevBuildSpec : BuildSpec.t :=
  BuildSpec.SingleFrontend 1 {|
    BuildSpec.phases := {|
      BuildSpec.preBuild := Some {| BuildSpec.commands := ["npm ci"] |};
      BuildSpec.build := {| BuildSpec.commands := ["npm run build-dev"] |} |};
    BuildSpec.artifacts := {|
      BuildSpec.baseDirectory := "/build";
      BuildSpec.files := ["**/*"] |};
    BuildSpec.cache := {| BuildSpec.paths := ["node_modules/**/*"] |};
    BuildSpec.customHeaders := None |}.

Definition openapiBuildSpec : BuildSpec.t :=
  BuildSpec.SingleFrontend 1 {|
    BuildSpec.phases := {|
      BuildSpec.preBuild := None;
      BuildSpec.build := {| BuildSpec.commands := [] |} |};
    BuildSpec.artifacts := {|
      BuildSpec.baseDirectory := "/";
      BuildSpec.files := ["**/*"] |};
    BuildSpec.cache := {| BuildSpec.paths := [] |};
    BuildSpec.customHeaders := None |}.

(** ** Build modes and the phases of a pre-build *)

Inductive BuildMode : Type := production | development.

(** The micro-app specification of a mode. *)
Definition microAppSpec (securityHeaders microAppCorsHeader : list BuildSpec.Header)
    (mode : BuildMode) (name : string) : BuildSpec.t :=
  match mode with
  | production => microAppBuildSpec securityHeaders microAppCorsHeader name
  | development => microAppDevBuildSpec microAppCorsHeader name
  end.

(** A submodule-synchronization command is a [git submodule ...] command;
    a dependency-install command is an [npm install] or [pnpm install]. *)
Definition isSubmoduleSync (cmd : string) : bool :=
  has_prefix "git submodule" cmd.

Definition isInstall (cmd : string) : bool :=
  has_prefix "npm install" cmd || has_prefix "pnpm install" cmd.

Definition hasSubmoduleSync (spec : BuildSpec.t) : bool :=
  existsb isSubmoduleSync (BuildSpec.preBuildCommands spec).

(** Every sync command of the list stands before every install command. *)
Definition syncBeforeInstall (cmds : list string) : Prop :=
  ∀ (i j : nat) (ci cj : string),
    cmds !! i = Some ci → cmds !! j = Some cj →
    isSubmoduleSync ci = true → isInstall cj = true → (i < j)%nat.

(** Set inclusion on header lists. *)
Definition header_subset (a b : list BuildSpec.Header) : Prop :=
  ∀ h, h ∈ a → h ∈ b.

Definition header_strict_subset (a b : list BuildSpec.Header) : Prop :=
  header_subset a b ∧ ¬ header_subset b a.

(** ** Statements used by the properties *)


(** Construction of the course-reviews group failing whenever the
    service-account credential is undefined. *)
Definition missing_credential_fails : Prop :=
  ∀ (cfg : Configs) (id : string) (props : FunctionsProps),
    GOOGLE_API_SERVICE_ACCOUNT_INFO cfg = Undefined →
    ∃ e, instantiate (CourseReviewsFunctions cfg id props) = Throw e.

Definition credentialKey : string := "GOOGLE_API_SERVICE_ACCOUNT_INFO".

(** A function carrying every supplied pair. *)
Definition carries_supplied (vars : gmap string string)
    (f : Lambda.LambdaFunction) : Prop :=
  ∀ k v, vars !! k = Some v → Lambda.env f !! k = Some (Str v).

(** The environments of the course-reviews functions: post and patch with
    the credential key on top of every supplied pair, get and delete with
    the supplied pairs only and without the credential key. *)
Definition review_environments_as_claimed (cfg : Configs) (id : string)
    (props : FunctionsProps) : Prop :=
  ∃ obj sc get post patch del,
    instantiate (CourseReviewsFunctions cfg id props) = Ok (obj, sc)
    ∧ CourseReviews.getFunction obj = Some get
    ∧ CourseReviews.postFunction obj = Some post
    ∧ CourseReviews.patchFunction obj = Some patch
    ∧ CourseReviews.deleteFunction obj = Some del
    ∧ is_Some (Lambda.env post !! credentialKey)
    ∧ carries_supplied (envVars props) post
    ∧ is_Some (Lambda.env patch !! credentialKey)
    ∧ carries_supplied (envVars props) patch
    ∧ Lambda.env get = Str <$> envVars props
    ∧ Lambda.env get !! credentialKey = None
    ∧ Lambda.env del = Str <$> envVars props
    ∧ Lambda.env del !! credentialKey = None.

(** The roles of a deployment in which every class is instantiated once,
    each with its own id and props. *)
Definition deployment_roles (cfg : Configs)
    (args : Family → string * FunctionsProps) : list Iam.LazyRole :=
  concat (map (fun fam => family_roles cfg fam (args fam).1 (args fam).2)
              families).

(** ** Sample inputs *)

Definition suppliedConfigs : Configs := {|
  AwsServicePrincipal_LAMBDA := "lambda.amazonaws.com";
  GOOGLE_API_SERVICE_ACCOUNT_INFO := Str "{service-account}";
  SLACK_WEBHOOK_URL := Str "https://hooks.slack.com/services/T/B/X" |}.

(** Neither secret is set in the process environment. *)
Definition bareConfigs : Configs := {|
  AwsServicePrincipal_LAMBDA := "lambda.amazonaws.com";
  GOOGLE_API_SERVICE_ACCOUNT_INFO := Undefined;
  SLACK_WEBHOOK_URL := Undefined |}.

Definition noVars : FunctionsProps := {| envVars := ∅ |}.

Definition tableVars : FunctionsProps :=
  {| envVars := {[ "TABLE_NAME" := "course-review" ]} |}.

(** A caller that passes the credential key himself. *)
Definition credentialVars : FunctionsProps :=
  {| envVars := {[ credentialKey := "{from-caller}" ]} |}.

Definition sampleArgs (fam : Family) : string * FunctionsProps :=
  match fam with
  | CourseReviewsF => ("course-reviews-functions", tableVars)
  | SyllabusScraperF => ("syllabus-scraper", noVars)
  | AmplifyStatusPublisherF => ("amplify-status-publisher", noVars)
  | ScraperStatusPublisherF => ("scraper-status-publisher", noVars)
  | PreSignupWasedaMailValidatorF => ("signup-validator", noVars)
  | TimetableF => ("timetable-functions", tableVars)
  | SyllabusF => ("syllabus-functions", tableVars)
  end.

(** Modelled from the spec: the contents of [./website] are not among the
    sources; the specification describes the production header set as the
    baseline security headers (transport security, frame options,
    content-type sniffing protection, content security policy) and the
    development set as a CORS-enabling header only.  The values follow the
    web application's own security headers. *)
Definition sampleSecurityHeaders : list BuildSpec.Header := [
  {| BuildSpec.key := "Strict-Transport-Security";
     BuildSpec.value := "max-age=15552000; includeSubDomains" |};
  {| BuildSpec.key := "X-Frame-Options"; BuildSpec.value := "SAMEORIGIN" |};
  {| BuildSpec.key := "X-Content-Type-Options"; BuildSpec.value := "nosniff" |};
  {| BuildSpec.key := "Content-Security-Policy";
     BuildSpec.value := contentSecurityPolicy |} ].

Definition sampleCorsHeader : list BuildSpec.Header := [
  {| BuildSpec.key := "Access-Control-Allow-Origin"; BuildSpec.value := "*" |} ].

(** Modelled from the spec: [securityHeaders] and [microAppCorsHeader] of
    [./website], which is not among the sources.  The specification gives
    the production header set as the baseline security headers, namely
    transport security, frame options, content-type sniffing protection
    and content security policy, and the development set as a
    CORS-enabling header only.  The headers are given by their names; the
    values, which the specification leaves open, are whatever [valueOf]
    makes them. *)
Definition websiteSecurityHeaders (valueOf : string → string)
  : list BuildSpec.Header :=
  map (fun k => {| BuildSpec.key := k; BuildSpec.value := valueOf k |})
      ["Strict-Transport-Security"; "X-Frame-Options";
       "X-Content-Type-Options"; "Content-Security-Policy"].

Definition websiteCorsHeader (valueOf : string → string)
  : list BuildSpec.Header :=
  map (fun k => {| BuildSpec.key := k; BuildSpec.value := valueOf k |})
      ["Access-Control-Allow-Origin"].

(** ** The whole deployment *)

(** The functions of a deployment in which every class is instantiated
    once. *)
Definition deployment_functions (cfg : Configs)
    (args : Family → string * FunctionsProps) : list Lambda.LambdaFunction :=
  concat (map (fun fam => family_functions cfg fam (args fam).1 (args fam).2)
              families).

Definition code_dir (f : Lambda.LambdaFunction) : string :=
  match Lambda.code (Lambda.props f) with
  | Code_fromAsset dir => dir
  | entry dir => dir
  end.

Definition timeout_seconds (f : Lambda.LambdaFunction) : Z :=
  match Lambda.timeout (Lambda.props f) with
  | seconds n => n
  end.

(** The four environment tables that the constructors produce. *)
Inductive EnvShape : Type :=
| NoVariables
| SuppliedOnly
| SuppliedAndCredential
| WebhookOnly.

Definition env_of_shape (cfg : Configs) (props : FunctionsProps)
    (sh : EnvShape) : gmap string JsString :=
  match sh with
  | NoVariables => ∅
  | SuppliedOnly => Str <$> envVars props
  | SuppliedAndCredential =>
      <[credentialKey := GOOGLE_API_SERVICE_ACCOUNT_INFO cfg]>
        (Str <$> envVars props)
  | WebhookOnly => {[ "SLACK_WEBHOOK_URL" := SLACK_WEBHOOK_URL cfg ]}
  end.

(** The shape that goes with a function name. *)
Definition shape_of_name (name : string) : EnvShape :=
  if bool_decide (name ∈ ["post-course-review"; "patch-course-review"])
  then SuppliedAndCredential
  else if bool_decide (name ∈ ["amplify-status-publisher";
                               "scraper-status-publisher"])
  then WebhookOnly
  else if bool_decide (name ∈ ["import-timetable"; "export-timetable";
                               "wasedamail-signup-validator"])
  then NoVariables
  else SuppliedOnly.

(** ** Commands of a build specification *)

(** The commands of a specification in the order in which they run: the
    pre-build phase, then the build phase. *)
Definition allCommands (spec : BuildSpec.t) : list string :=
  concat (map (fun fe =>
    (match BuildSpec.preBuild (BuildSpec.phases fe) with
     | Some ph => BuildSpec.commands ph
     | None => []
     end ++ BuildSpec.commands (BuildSpec.build (BuildSpec.phases fe)))%list)
    (BuildSpec.frontends spec)).

Definition usesPnpm (cmd : string) : bool := has_prefix "pnpm " cmd.

Definition appRoots (spec : BuildSpec.t) : list string :=
  match spec with
  | BuildSpec.Applications _ apps => map BuildSpec.appRoot apps
  | BuildSpec.SingleFrontend _ _ => []
  end.

(** ** The diff step of the CI workflow *)

(** The [Diff] step of [.github/workflows/cdk.yml] reads the diff into a
    shell variable and escapes it before it is echoed as a step output:
    [LOG="$(cat diff.txt)"], then [${LOG//'%'/'%25'}], then the same for
    the line feed with [%0A] and the carriage return with [%0D]. *)

Definition LF : ascii := Ascii.ascii_of_nat 10.
Definition CR : ascii := Ascii.ascii_of_nat 13.

(** [${s//c/rep}] for a one-character pattern: every occurrence is
    replaced, left to right, and the replacement is not scanned again. *)
Fixpoint replace_all (c : ascii) (rep : string) (s : string) : string :=
  match s with
  | EmptyString => EmptyString
  | String a rest =>
      if Ascii.eqb a c then rep ++ replace_all c rep rest
      else String a (replace_all c rep rest)
  end.

Definition NUL : ascii := Ascii.ascii_of_nat 0.

(** A shell variable holds no NUL: command substitution passes over the
    NUL bytes of the output. *)
Fixpoint dropNul (out : string) : string :=
  match out with
  | EmptyString => EmptyString
  | String a rest =>
      if Ascii.eqb a NUL then dropNul rest else String a (dropNul rest)
  end.

Fixpoint stripTrailingLineFeeds (out : string) : string :=
  match out with
  | EmptyString => EmptyString
  | String a rest =>
      match stripTrailingLineFeeds rest with
      | EmptyString => if Ascii.eqb a LF then EmptyString
                       else String a EmptyString
      | kept => String a kept
      end
  end.

(** [$(...)]: command substitution passes over NUL bytes and drops every
    trailing line feed of what is left. *)
Definition commandSubstitution (out : string) : string :=
  stripTrailingLineFeeds (dropNul out).

Definition escapeLog (log : string) : string :=
  replace_all CR "%0D" (replace_all LF "%0A" (replace_all "%" "%25" log)).

(** The argument of the [echo] that sets the step output. *)
Definition diffStepOutput (diff_txt : string) : string :=
  "::set-output name=log::" ++ escapeLog (commandSubstitution diff_txt).

(** One character of a log, escaped. *)
Definition escapeChar (a : ascii) : string :=
  if Ascii.eqb a "%" then "%25"
  else if Ascii.eqb a LF then "%0A"
  else if Ascii.eqb a CR then "%0D"
  else String a EmptyString.

(** Reading an escaped log back: [%25], [%0A] and [%0D] give the
    character they stand for. *)
Fixpoint unescapeLog (s : string) : string :=
  match s with
  | String "%" (String "2" (String "5" rest)) => String "%" (unescapeLog rest)
  | String "%" (String "0" (String "A" rest)) => String LF (unescapeLog rest)
  | String "%" (String "0" (String "D" rest)) => String CR (unescapeLog rest)
  | String a rest => String a (unescapeLog rest)
  | EmptyString => EmptyString
  end.

(** * Properties *)

(** ** Helpers *)

Lemma existsb_elem_of {A} (p : A → bool) (l : list A) :
  existsb p l = true ↔ ∃ x, x ∈ l ∧ p x = true.
Proof.
  rewrite existsb_exists. split; intros (x & Hx & Hp); exists x; split;
    try assumption; by apply list_elem_of_In.
Qed.

Lemma string_eqb_true (a b : string) : String.eqb a b = true ↔ a = b.
Proof. apply String.eqb_eq. Qed.

Lemma string_eqb_false (a b : string) : String.eqb a b = false ↔ a ≠ b.
Proof. apply String.eqb_neq. Qed.

(** Every member of a literal list, one case per element. *)
Ltac each_member H :=
  repeat match type of H with
         | _ ∈ [] => by apply elem_of_nil in H
         | _ ∈ _ :: _ => apply elem_of_cons in H as [-> | H]
         end.

(** ** The timetable group *)

(** C1. The timetable constructor builds two roles (read, write) and five
    functions: get on the read role, post and patch on the write role,
    import and export on no role, with 128, 128, 128, 256 and 512 MB.  The
    declared field [deleteFunction] is never assigned: no sixth function
    exists and nothing is bound to the write role for deletion, whereas the
    course-reviews constructor does build its delete function. *)
Theorem timetable_deleteFunction_unassigned (cfg : Configs) (id : string)
    (props : FunctionsProps) :
  (∃ obj sc rd wr get post patch imp exp,
      instantiate (TimetableFunctions cfg id props) = Ok (obj, sc)
      ∧ roles_of sc = [rd; wr]
      ∧ Iam.roleName rd = "dynamodb-lambda-read-timetable"
      ∧ Iam.roleName wr = "dynamodb-lambda-write-timetable"
      ∧ Timetable.getFunction obj = Some get
      ∧ Timetable.postFunction obj = Some post
      ∧ Timetable.patchFunction obj = Some patch
      ∧ Timetable.deleteFunction obj = None
      ∧ Timetable.importFunction obj = Some imp
      ∧ Timetable.exportFunction obj = Some exp
      ∧ functions_of sc = [get; post; patch; imp; exp]
      ∧ map fn_role [get; post; patch; imp; exp]
          = [Some rd; Some wr; Some wr; None; None]
      ∧ map fn_memory [get; post; patch; imp; exp]
          = [128; 128; 128; 256; 512])
  ∧ (∃ obj sc del wr,
      instantiate (CourseReviewsFunctions cfg id props) = Ok (obj, sc)
      ∧ CourseReviews.deleteFunction obj = Some del
      ∧ fn_role del = Some wr
      ∧ access_of wr = ReadWrite
      ∧ fn_memory del = 128).
Proof.
  split.
  - do 9 eexists. split; [reflexivity |]. repeat split; reflexivity.
  - do 4 eexists. split; [reflexivity |]. repeat split; reflexivity.
Qed.

(** ** The binding rule *)





(** ** Credentials *)

(** C3 (amended). Construction never fails on account of a credential: for
    every configuration, supplied or not, the course-reviews group and the
    status publishers are constructed, and the functions that need a
    credential bind its key to the configured value as it is, hence to
    [Undefined] when it was not supplied.  Likewise [bitToken] is read
    without a check and is [Undefined] when [BIT_TOKEN] is not set. *)
Theorem credential_passed_unchecked (cfg : Configs) (id : string)
    (props : FunctionsProps) (optProps : option FunctionsProps)
    (env : process_env) :
  (∃ obj sc post patch,
      instantiate (CourseReviewsFunctions cfg id props) = Ok (obj, sc)
      ∧ CourseReviews.postFunction obj = Some post
      ∧ CourseReviews.patchFunction obj = Some patch
      ∧ Lambda.env post !! credentialKey
          = Some (GOOGLE_API_SERVICE_ACCOUNT_INFO cfg)
      ∧ Lambda.env patch !! credentialKey
          = Some (GOOGLE_API_SERVICE_ACCOUNT_INFO cfg))
  ∧ (∃ obj sc base,
      instantiate (AmplifyStatusPublisher cfg id optProps) = Ok (obj, sc)
      ∧ Single.baseFunction obj = Some base
      ∧ Lambda.env base = {[ "SLACK_WEBHOOK_URL" := SLACK_WEBHOOK_URL cfg ]})
  ∧ (∃ obj sc base,
      instantiate (ScraperStatusPublisher cfg id optProps) = Ok (obj, sc)
      ∧ Single.baseFunction obj = Some base
      ∧ Lambda.env base = {[ "SLACK_WEBHOOK_URL" := SLACK_WEBHOOK_URL cfg ]})
  ∧ bitToken (delete "BIT_TOKEN" env) = Undefined.
Proof.
  split; [| split; [| split]].
  - do 4 eexists. split; [reflexivity |].
    repeat split; try reflexivity; cbn; apply lookup_insert_eq.
  - do 3 eexists. split; [reflexivity |]. repeat split; reflexivity.
  - do 3 eexists. split; [reflexivity |]. repeat split; reflexivity.
  - unfold bitToken, getenv, process_env in *. by rewrite lookup_delete_eq.
Qed.

(** C3 (as stated) fails when the service-account credential is not
    supplied: the course-reviews group is constructed all the same, and its
    post function carries the credential key bound to [Undefined]. *)
Lemma undefined_credential_still_constructs :
  GOOGLE_API_SERVICE_ACCOUNT_INFO bareConfigs = Undefined
  ∧ (∃ obj sc post,
        instantiate (CourseReviewsFunctions bareConfigs
                       "course-reviews-functions" tableVars) = Ok (obj, sc)
        ∧ CourseReviews.postFunction obj = Some post
        ∧ Lambda.env post !! credentialKey = Some Undefined
        ∧ Lambda.env post !! "TABLE_NAME" = Some (Str "course-review"))
  ∧ bitToken ∅ = Undefined
  ∧ ¬ missing_credential_fails.
Proof.
  split; [reflexivity |]. split; [| split].
  - do 3 eexists. split; [reflexivity |]. repeat split; reflexivity.
  - reflexivity.
  - intros Hfails.
    destruct (Hfails bareConfigs "course-reviews-functions" tableVars
                eq_refl) as [e He].
    discriminate He.
Qed.

(** ** Environments of the course-reviews functions *)

(** C9 (amended). For every supplied mapping, post and patch hold the
    supplied mapping with the credential key set to the configured
    credential: they carry that key and every supplied pair under any
    other key, a supplied pair under the credential key being overwritten.
    Get and delete hold exactly the supplied mapping, so they have the
    credential key just when the caller supplied it. *)
Theorem course_reviews_environments (cfg : Configs) (id : string)
    (props : FunctionsProps) :
  ∃ obj sc get post patch del,
    instantiate (CourseReviewsFunctions cfg id props) = Ok (obj, sc)
    ∧ CourseReviews.getFunction obj = Some get
    ∧ CourseReviews.postFunction obj = Some post
    ∧ CourseReviews.patchFunction obj = Some patch
    ∧ CourseReviews.deleteFunction obj = Some del
    ∧ Lambda.env post
        = <[credentialKey := GOOGLE_API_SERVICE_ACCOUNT_INFO cfg]>
            (Str <$> envVars props)
    ∧ Lambda.env patch = Lambda.env post
    ∧ Lambda.env post !! credentialKey
        = Some (GOOGLE_API_SERVICE_ACCOUNT_INFO cfg)
    ∧ (∀ k v, envVars props !! k = Some v → k ≠ credentialKey →
              Lambda.env post !! k = Some (Str v))
    ∧ Lambda.env get = Str <$> envVars props
    ∧ Lambda.env del = Str <$> envVars props
    ∧ Lambda.env get !! credentialKey = Str <$> envVars props !! credentialKey.
Proof.
  do 6 eexists. split; [reflexivity |].
  do 4 (split; [reflexivity |]). cbn.
  split; [reflexivity |]. split; [reflexivity |].
  split; [apply lookup_insert_eq |].
  split; [| split; [reflexivity | split; [reflexivity |]]].
  - intros k v Hk Hne.
    rewrite lookup_insert_ne by (intros Heq; by apply Hne).
    by rewrite lookup_fmap, Hk.
  - apply lookup_fmap.
Qed.

Lemma course_reviews_environments_witness :
  ∃ post : Lambda.LambdaFunction,
    Lambda.env post !! "TABLE_NAME" = Some (Str "course-review")
    ∧ Lambda.env post !! credentialKey = Some (Str "{service-account}").
Proof.
  destruct (course_reviews_environments suppliedConfigs
              "course-reviews-functions" tableVars)
    as (obj & sc & get & post & patch & del & _ & _ & _ & _ & _ & _ & _
        & Hkey & Hcarry & _).
  exists post. split.
  - apply (Hcarry "TABLE_NAME" "course-review").
    + reflexivity.
    + discriminate.
  - exact Hkey.
Defined.

(** C9 (as stated) fails for a caller that supplies the credential key
    himself: get then carries the key, and post does not carry the supplied
    pair, whose value the configured credential has replaced. *)
Lemma supplied_credential_key_breaks_claim :
  (∃ obj sc get post,
      instantiate (CourseReviewsFunctions suppliedConfigs
                     "course-reviews-functions" credentialVars) = Ok (obj, sc)
      ∧ CourseReviews.getFunction obj = Some get
      ∧ CourseReviews.postFunction obj = Some post
      ∧ envVars credentialVars !! credentialKey = Some "{from-caller}"
      ∧ Lambda.env get !! credentialKey = Some (Str "{from-caller}")
      ∧ Lambda.env post !! credentialKey = Some (Str "{service-account}"))
  ∧ ¬ review_environments_as_claimed suppliedConfigs
        "course-reviews-functions" credentialVars.
Proof.
  split.
  - do 4 eexists. split; [reflexivity |].
    repeat split; reflexivity.
  - intros (obj & sc & get & post & patch & del & Hrun & Hget & _ & _ & _
            & _ & _ & _ & _ & Henv & Hnone & _).
    injection Hrun as <- _. injection Hget as <-.
    discriminate Hnone.
Qed.

(** ** Roles *)

Lemma has_baseline_spec (r : Iam.LazyRole) :
  has_baseline r = true ↔ basicExecArn ∈ policy_arns r.
Proof.
  unfold has_baseline. rewrite existsb_elem_of. split.
  - intros (arn & Hin & Heq). apply string_eqb_true in Heq. by subst.
  - intros Hin. exists basicExecArn. split; [assumption |].
    by apply string_eqb_true.
Qed.

Lemma family_roles_baseline (cfg : Configs) (fam : Family) (id : string)
    (props : FunctionsProps) :
  forallb (fun r => has_baseline r
                    && Nat.eqb (length (Iam.managedPolicies r)) 2)
          (family_roles cfg fam id props) = true.
Proof. destruct fam; vm_compute; reflexivity. Qed.

(** C5. Every role constructed by any of the classes, for every
    configuration, id and props, lists the baseline execution policy
    [AWSLambdaBasicExecutionRole] among its managed policies, of which it
    has two: the baseline and the policy of its own.  The classes construct
    six roles in all. *)
Theorem every_role_has_baseline_policy (cfg : Configs)
    (args : Family → string * FunctionsProps) :
  Forall (fun r => basicExecArn ∈ policy_arns r
                   ∧ length (policy_arns r) = 2%nat)
         (deployment_roles cfg args)
  ∧ length (deployment_roles cfg args) = 6%nat.
Proof.
  split; [| reflexivity].
  unfold deployment_roles. apply Forall_concat, Forall_map, Forall_forall.
  intros fam _. cbn beta. apply Forall_forall. intros r Hr.
  apply list_elem_of_In in Hr.
  pose proof (proj1 (forallb_forall _ _)
                (family_roles_baseline cfg fam (args fam).1 (args fam).2)
                r Hr) as Hok.
  apply andb_prop in Hok as [Hbase Hlen]. split.
  - by apply has_baseline_spec.
  - unfold policy_arns. rewrite length_map. by apply Nat.eqb_eq.
Qed.

(** Lists of at most two elements, given by their elements. *)
Lemma Forall_upto_two {A} (P : A → Prop) (l : list A) :
  l = []
  ∨ (∃ x, l = [x] ∧ P x)
  ∨ (∃ x y, l = [x; y] ∧ P x ∧ P y) →
  Forall P l.
Proof.
  intros [-> | [(x & -> & Hx) | (x & y & -> & Hx & Hy)]];
    repeat constructor; assumption.
Qed.

(** A role is used when some position of the function list holds a function
    bound to it. *)
Ltac used_at i :=
  eexists; split;
    [eapply (list_elem_of_lookup_2 _ i); reflexivity | reflexivity].

Ltac used_by_some :=
  first [ solve [used_at 0%nat] | solve [used_at 1%nat]
        | solve [used_at 2%nat] | solve [used_at 3%nat] ].

(** C8. In every class, every role that the constructor builds is the role
    of at least one of its functions, and the number of roles built equals
    the number of distinct roles its functions are bound to: two for the
    course reviews and the timetable, one for the scraper and for the
    syllabus group with its single read-only function, none for the
    publishers and the validator. *)
Theorem no_orphan_roles (cfg : Configs) (fam : Family) (id : string)
    (props : FunctionsProps) :
  ∃ sc,
    family_children cfg fam id props = Ok sc
    ∧ Forall (fun r => ∃ f, f ∈ functions_of sc ∧ fn_role f = Some r)
             (roles_of sc)
    ∧ length (roles_of sc) = length (bound_roles sc)
    ∧ length (roles_of sc)
        = match fam with
          | CourseReviewsF | TimetableF => 2%nat
          | SyllabusScraperF | SyllabusF => 1%nat
          | _ => 0%nat
          end.
Proof.
  destruct fam; eexists; (split; [reflexivity |]);
    (split; [| split; reflexivity]); apply Forall_upto_two;
    first
      [ left; reflexivity
      | right; left; eexists; split; [reflexivity | used_by_some]
      | right; right; do 2 eexists;
        split; [reflexivity | split; used_by_some] ].
Qed.

(** C10. With every class instantiated once, whatever the ids and props,
    the six roles are named dynamodb-lambda-read, dynamodb-lambda-write,
    s3-lambda-full-access, dynamodb-lambda-read-timetable,
    dynamodb-lambda-write-timetable and dynamodb-lambda-read-syllabus, and
    no name occurs twice. *)
Theorem role_names_pairwise_distinct (cfg : Configs)
    (args : Family → string * FunctionsProps) :
  map Iam.roleName (deployment_roles cfg args)
    = ["dynamodb-lambda-read"; "dynamodb-lambda-write";
       "s3-lambda-full-access"; "dynamodb-lambda-read-timetable";
       "dynamodb-lambda-write-timetable"; "dynamodb-lambda-read-syllabus"]
  ∧ NoDup (map Iam.roleName (deployment_roles cfg args)).
Proof.
  assert (Hnames : map Iam.roleName (deployment_roles cfg args)
    = ["dynamodb-lambda-read"; "dynamodb-lambda-write";
       "s3-lambda-full-access"; "dynamodb-lambda-read-timetable";
       "dynamodb-lambda-write-timetable"; "dynamodb-lambda-read-syllabus"])
    by reflexivity.
  split; [exact Hnames |]. rewrite Hnames.
  apply (bool_decide_unpack _). vm_compute. exact I.
Qed.

(** ** Build specifications *)

Lemma microApp_preBuildCommands (sec cors : list BuildSpec.Header)
    (name : string) :
  BuildSpec.preBuildCommands (microAppBuildSpec sec cors name)
    = BuildSpec.commands
        (if String.eqb name "feeds" then preBuildForFeeds else preBuild).
Proof. unfold BuildSpec.preBuildCommands. cbn. apply app_nil_r. Qed.

Lemma microAppDev_preBuildCommands (cors : list BuildSpec.Header)
    (name : string) :
  BuildSpec.preBuildCommands (microAppDevBuildSpec cors name)
    = BuildSpec.commands preBuild.
Proof. reflexivity. Qed.

(** C7. The production specification of the application named feeds has
    the four submodule commands and the two install commands in its
    pre-build phase, every submodule command standing before every install
    command; the production specification of an application of any other
    name has no submodule command. *)
Theorem prod_feeds_sync_before_install (sec cors : list BuildSpec.Header) :
  (let cmds := BuildSpec.preBuildCommands (microAppBuildSpec sec cors "feeds") in
   filter (fun c => isSubmoduleSync c = true) cmds
     = ["git submodule set-url feeds/public/feeds https://${GITHUB_ACCESS_TOKEN}@github.com/wasedatime/feeds.git";
        "git submodule sync"; "git submodule init";
        "git submodule update --remote"]
   ∧ filter (fun c => isInstall c = true) cmds
     = ["npm install -g pnpm"; "pnpm install --filter ."]
   ∧ syncBeforeInstall cmds)
  ∧ (∀ name, name ≠ "feeds" →
       hasSubmoduleSync (microAppBuildSpec sec cors name) = false).
Proof.
  split; [split; [reflexivity | split; [reflexivity |]] |].
  - intros i j ci cj Hi Hj Hsync Hinst.
    rewrite microApp_preBuildCommands in Hi, Hj. cbn in Hi, Hj.
    do 4 (destruct i as [| i];
          [destruct j as [| [| [| [| j]]]];
             [injection Hj as <-; discriminate Hinst ..| lia] |]).
    destruct i as [| [| i]]; cbn in Hi; try discriminate Hi;
      injection Hi as <-; discriminate Hsync.
  - intros name Hname. unfold hasSubmoduleSync.
    rewrite microApp_preBuildCommands.
    apply string_eqb_false in Hname. rewrite Hname. reflexivity.
Qed.

Lemma prod_feeds_sync_before_install_witness :
  hasSubmoduleSync (microAppBuildSpec sampleSecurityHeaders sampleCorsHeader
                      "syllabus") = false.
Proof.
  apply (proj2 (prod_feeds_sync_before_install sampleSecurityHeaders
                  sampleCorsHeader) "syllabus").
  discriminate.
Defined.

(** C4. The submodule synchronization is chosen by name in production only:
    the development specification takes the plain pre-build for every name,
    so the development specification of feeds has no submodule command,
    while its production specification has them. *)
Theorem dev_feeds_lacks_submodule_sync (sec cors : list BuildSpec.Header) :
  hasSubmoduleSync (microAppSpec sec cors production "feeds") = true
  ∧ hasSubmoduleSync (microAppSpec sec cors development "feeds") = false
  ∧ BuildSpec.preBuildCommands (microAppSpec sec cors development "feeds")
      = ["npm install -g pnpm"; "pnpm install --filter ."]
  ∧ (∀ name, hasSubmoduleSync (microAppSpec sec cors development name) = false).
Proof. repeat split; reflexivity. Qed.

Lemma microAppDev_responseHeaders (cors : list BuildSpec.Header)
    (name : string) :
  BuildSpec.responseHeaders (microAppDevBuildSpec cors name) = cors.
Proof. unfold BuildSpec.responseHeaders. cbn. by rewrite !app_nil_r. Qed.

Lemma microApp_responseHeaders (sec cors : list BuildSpec.Header)
    (name : string) :
  BuildSpec.responseHeaders (microAppBuildSpec sec cors name)
    = (sec ++ cors)%list.
Proof. unfold BuildSpec.responseHeaders. cbn. by rewrite !app_nil_r. Qed.

(** C6. For one application name, the response headers of the development
    specification form a strict subset of those of the production
    specification.  A micro-app sends the CORS headers in development and
    the security headers followed by the CORS headers in production, and
    the security headers (transport security, frame options, content-type
    sniffing protection, content security policy) are no CORS headers,
    whatever their values; the web application sends no header in
    development and its security and caching headers in production. *)
Theorem dev_headers_strict_subset (valueOf : string → string)
    (name : string) :
  header_strict_subset
    (BuildSpec.responseHeaders
       (microAppSpec (websiteSecurityHeaders valueOf)
          (websiteCorsHeader valueOf) development name))
    (BuildSpec.responseHeaders
       (microAppSpec (websiteSecurityHeaders valueOf)
          (websiteCorsHeader valueOf) production name))
  ∧ header_strict_subset
      (BuildSpec.responseHeaders webappDevBuildSpec)
      (BuildSpec.responseHeaders webappBuildSpec).
Proof.
  unfold microAppSpec.
  rewrite microAppDev_responseHeaders, microApp_responseHeaders.
  split; split.
  - intros x Hx. apply elem_of_app. by right.
  - intros Hback.
    assert (Hin : {| BuildSpec.key := "Strict-Transport-Security";
                     BuildSpec.value := valueOf "Strict-Transport-Security" |}
                  ∈ websiteCorsHeader valueOf).
    { apply Hback, elem_of_app. left. apply list_elem_of_here. }
    apply list_elem_of_singleton in Hin. discriminate Hin.
  - intros x Hx. by apply elem_of_nil in Hx.
  - intros Hback.
    eapply elem_of_nil, Hback, list_elem_of_here.
Qed.

(** * Further properties *)

(** ** The diff step of the workflow *)

Lemma string_app_cons (x : ascii) (a b : string) :
  String x a ++ b = String x (a ++ b).
Proof. reflexivity. Qed.

Lemma string_app_assoc (a b c : string) : (a ++ b) ++ c = a ++ (b ++ c).
Proof.
  induction a as [| x a IH]; [reflexivity |].
  by rewrite !string_app_cons, IH.
Qed.

Lemma string_app_length (a b : string) :
  String.length (a ++ b) = (String.length a + String.length b)%nat.
Proof.
  induction a as [| x a IH]; [reflexivity |].
  rewrite string_app_cons. simpl. by rewrite IH.
Qed.

Lemma replace_all_app (c : ascii) (rep a b : string) :
  replace_all c rep (a ++ b) = replace_all c rep a ++ replace_all c rep b.
Proof.
  induction a as [| x a IH]; [reflexivity |].
  rewrite string_app_cons. simpl. destruct (Ascii.eqb x c); rewrite IH.
  - by rewrite string_app_assoc.
  - by rewrite string_app_cons.
Qed.

Lemma escapeLog_app (a b : string) :
  escapeLog (a ++ b) = escapeLog a ++ escapeLog b.
Proof. unfold escapeLog. by rewrite !replace_all_app. Qed.

Lemma ascii_eqb_true (a b : ascii) : Ascii.eqb a b = true ↔ a = b.
Proof. apply Ascii.eqb_eq. Qed.

Lemma escapeLog_char (a : ascii) :
  escapeLog (String a EmptyString) = escapeChar a.
Proof.
  unfold escapeLog, escapeChar. cbn [replace_all].
  destruct (Ascii.eqb a "%") eqn:Epct.
  - reflexivity.
  - cbn [replace_all]. destruct (Ascii.eqb a LF) eqn:Elf.
    + reflexivity.
    + cbn [replace_all]. by destruct (Ascii.eqb a CR).
Qed.

Lemma escapeLog_cons (a : ascii) (s : string) :
  escapeLog (String a s) = escapeChar a ++ escapeLog s.
Proof.
  change (String a s) with (String a EmptyString ++ s).
  by rewrite escapeLog_app, escapeLog_char.
Qed.

Lemma escapeChar_cases (a : ascii) :
  (a = "%"%char ∧ escapeChar a = "%25")
  ∨ (a = LF ∧ escapeChar a = "%0A")
  ∨ (a = CR ∧ escapeChar a = "%0D")
  ∨ (a ≠ "%"%char ∧ a ≠ LF ∧ a ≠ CR ∧ escapeChar a = String a EmptyString).
Proof.
  unfold escapeChar.
  destruct (Ascii.eqb a "%") eqn:Epct.
  { apply ascii_eqb_true in Epct. by left. }
  destruct (Ascii.eqb a LF) eqn:Elf.
  { apply ascii_eqb_true in Elf. right; by left. }
  destruct (Ascii.eqb a CR) eqn:Ecr.
  { apply ascii_eqb_true in Ecr. right; right; by left. }
  right; right; right.
  repeat split; try reflexivity; intros ->; discriminate.
Qed.

Lemma list_ascii_app (a b : string) :
  list_ascii_of_string (a ++ b)
    = (list_ascii_of_string a ++ list_ascii_of_string b)%list.
Proof.
  induction a as [| x a IH]; [reflexivity |].
  rewrite string_app_cons. simpl. by rewrite IH.
Qed.

Lemma string_app_nil_l (a : string) : EmptyString ++ a = a.
Proof. reflexivity. Qed.

Lemma escapeChar_line_safe (a : ascii) :
  Forall (fun c => c ≠ LF ∧ c ≠ CR) (list_ascii_of_string (escapeChar a)).
Proof.
  destruct (escapeChar_cases a)
    as [[_ ->] | [[_ ->] | [[_ ->] | (_ & Hlf & Hcr & ->)]]];
    repeat constructor; try discriminate; assumption.
Qed.

Lemma escapeLog_line_safe (s : string) :
  Forall (fun c => c ≠ LF ∧ c ≠ CR) (list_ascii_of_string (escapeLog s)).
Proof.
  induction s as [| a s IH]; [constructor |].
  rewrite escapeLog_cons, list_ascii_app. apply Forall_app. split.
  - apply escapeChar_line_safe.
  - exact IH.
Qed.

(** X1. Whatever the diff holds, the text that the Diff step echoes as its
    output has no line feed and no carriage return: it is one line. *)
Theorem diffStepOutput_single_line (diff_txt : string) :
  Forall (fun a => a ≠ LF ∧ a ≠ CR)
         (list_ascii_of_string (diffStepOutput diff_txt)).
Proof.
  unfold diffStepOutput. rewrite list_ascii_app. apply Forall_app. split.
  - repeat constructor; discriminate.
  - apply escapeLog_line_safe.
Qed.

Lemma unescapeLog_other (a : ascii) (r : string) :
  a ≠ "%"%char → unescapeLog (String a r) = String a (unescapeLog r).
Proof.
  intros Hne.
  destruct a as [[] [] [] [] [] [] [] []]; try reflexivity.
  by destruct Hne.
Qed.

Lemma unescapeLog_escapeLog (s : string) : unescapeLog (escapeLog s) = s.
Proof.
  induction s as [| a s IH]; [reflexivity |].
  rewrite escapeLog_cons.
  destruct (escapeChar_cases a)
    as [[-> ->] | [[-> ->] | [[-> ->] | (Hpct & _ & _ & ->)]]].
  - rewrite !string_app_cons, string_app_nil_l. cbn [unescapeLog].
    by rewrite IH.
  - rewrite !string_app_cons, string_app_nil_l. cbn [unescapeLog].
    by rewrite IH.
  - rewrite !string_app_cons, string_app_nil_l. cbn [unescapeLog].
    by rewrite IH.
  - rewrite string_app_cons, string_app_nil_l.
    rewrite unescapeLog_other by assumption. by rewrite IH.
Qed.

(** X2. Escaping loses nothing: two logs with the same escaped text are the
    same log. *)
Theorem escapeLog_injective (a b : string) :
  escapeLog a = escapeLog b → a = b.
Proof.
  intros Heq.
  rewrite <- (unescapeLog_escapeLog a), <- (unescapeLog_escapeLog b).
  by rewrite Heq.
Qed.

Lemma escapeLog_injective_witness :
  escapeLog ("100%" ++ String LF "done") = "100%25%0Adone"
  ∧ "100%" ++ String LF "done" = "100%" ++ String LF "done".
Proof.
  split; [reflexivity |].
  apply (escapeLog_injective ("100%" ++ String LF "done")
           ("100%" ++ String LF "done")).
  reflexivity.
Defined.

Lemma escapeChar_length (a : ascii) :
  (1 ≤ String.length (escapeChar a) ≤ 3)%nat.
Proof.
  destruct (escapeChar_cases a)
    as [[_ ->] | [[_ ->] | [[_ ->] | (_ & _ & _ & ->)]]]; simpl; lia.
Qed.

Lemma escapeLog_length (s : string) :
  (String.length s ≤ String.length (escapeLog s) ≤ 3 * String.length s)%nat.
Proof.
  induction s as [| a s IH]; [simpl; lia |].
  rewrite escapeLog_cons, string_app_length.
  pose proof (escapeChar_length a). simpl String.length. lia.
Qed.

(** X3. The escaped log is at least as long as the log and at most three
    times as long, and escaping leaves a log as it is exactly when the log
    holds no percent sign, no line feed and no carriage return. *)
Theorem escapeLog_length_and_fixpoints (s : string) :
  (String.length s ≤ String.length (escapeLog s) ≤ 3 * String.length s)%nat
  ∧ (escapeLog s = s
     ↔ Forall (fun a => a ≠ "%"%char ∧ a ≠ LF ∧ a ≠ CR)
              (list_ascii_of_string s)).
Proof.
  split; [apply escapeLog_length |].
  induction s as [| a s IH]; [split; [constructor | reflexivity] |].
  rewrite escapeLog_cons. simpl list_ascii_of_string.
  rewrite Forall_cons.
  destruct (escapeChar_cases a)
    as [[-> ->] | [[-> ->] | [[-> ->] | (Hpct & Hlf & Hcr & ->)]]].
  - split.
    + rewrite !string_app_cons, string_app_nil_l. intros Heq.
      injection Heq as Heq. apply (f_equal String.length) in Heq.
      pose proof (escapeLog_length s). simpl in Heq. lia.
    + intros [[Hne _] _]. by destruct Hne.
  - split; [discriminate |]. intros [(_ & Hne & _) _]. by destruct Hne.
  - split; [discriminate |]. intros [(_ & _ & Hne) _]. by destruct Hne.
  - rewrite string_app_cons, string_app_nil_l. split.
    + intros Heq. injection Heq as Heq. split; [done |]. by apply IH.
    + intros [_ Hrest]. f_equal. by apply IH.
Qed.

(** X4. The three substitutions act as one pass over the log: every
    character is escaped on its own, a percent sign as [%25], a line feed
    as [%0A], a carriage return as [%0D] and any other character as itself,
    so that the percent signs written for line ends are not escaped a
    second time, and escaping a log in pieces gives the same text. *)
Theorem escapeLog_one_pass (a : ascii) (s t : string) :
  escapeLog (String a s) = escapeChar a ++ escapeLog s
  ∧ escapeLog (s ++ t) = escapeLog s ++ escapeLog t
  ∧ escapeLog (String LF EmptyString) = "%0A"
  ∧ escapeLog (String CR EmptyString) = "%0D"
  ∧ escapeLog "%" = "%25".
Proof.
  split; [apply escapeLog_cons |]. split; [apply escapeLog_app |].
  repeat split; reflexivity.
Qed.

Lemma strip_cons (a : ascii) (s : string) :
  stripTrailingLineFeeds (String a s)
    = if decide (stripTrailingLineFeeds s = EmptyString ∧ a = LF)
      then EmptyString
      else String a (stripTrailingLineFeeds s).
Proof.
  simpl. destruct (stripTrailingLineFeeds s) as [| b r].
  - destruct (Ascii.eqb a LF) eqn:E.
    + apply ascii_eqb_true in E. by rewrite decide_True.
    + rewrite decide_False; [reflexivity |].
      intros [_ ->]. discriminate E.
  - rewrite decide_False; [reflexivity |]. intros [? _]. discriminate.
Qed.

Lemma strip_tail (s : string) :
  ∃ n, s = stripTrailingLineFeeds s
             ++ string_of_list_ascii (replicate n LF).
Proof.
  induction s as [| a s [n IH]]; [by exists 0%nat |].
  rewrite strip_cons. case_decide as Hd.
  - destruct Hd as [Hnil ->]. exists (S n).
    rewrite Hnil in IH. rewrite string_app_nil_l in *. simpl. by rewrite <- IH.
  - exists n. rewrite string_app_cons. by rewrite <- IH.
Qed.

Lemma strip_no_trailing (s kept : string) :
  stripTrailingLineFeeds s ≠ kept ++ String LF EmptyString.
Proof.
  revert kept. induction s as [| a s IH]; intros kept.
  - destruct kept; discriminate.
  - rewrite strip_cons. case_decide as Hd.
    + destruct kept; discriminate.
    + destruct kept as [| b kept].
      * rewrite string_app_nil_l. intros Heq. injection Heq as -> Heq.
        apply Hd. by split.
      * rewrite string_app_cons. intros Heq. injection Heq as _ Heq.
        by apply (IH kept).
Qed.

Lemma strip_fixed (s : string) :
  (∀ kept, s ≠ kept ++ String LF EmptyString) →
  stripTrailingLineFeeds s = s.
Proof.
  induction s as [| a s IH]; [reflexivity |]. intros Hno.
  rewrite strip_cons.
  assert (Hs : stripTrailingLineFeeds s = s).
  { apply IH. intros kept ->. by apply (Hno (String a kept)). }
  rewrite Hs. case_decide as Hd; [| reflexivity].
  destruct Hd as [-> ->]. by destruct (Hno EmptyString).
Qed.

Lemma dropNul_no_nul (s : string) :
  Forall (fun a => a ≠ NUL) (list_ascii_of_string (dropNul s)).
Proof.
  induction s as [| a s IH]; [constructor |]. simpl.
  destruct (Ascii.eqb a NUL) eqn:E; [exact IH |].
  simpl. constructor; [| exact IH]. intros ->. discriminate E.
Qed.

Lemma dropNul_fixed (s : string) :
  Forall (fun a => a ≠ NUL) (list_ascii_of_string s) → dropNul s = s.
Proof.
  induction s as [| a s IH]; [reflexivity |]. simpl.
  intros Hall. apply Forall_cons in Hall as [Ha Hs].
  destruct (Ascii.eqb a NUL) eqn:E.
  - apply ascii_eqb_true in E. by destruct Ha.
  - f_equal. by apply IH.
Qed.

Lemma strip_no_nul (s : string) :
  Forall (fun a => a ≠ NUL) (list_ascii_of_string s) →
  Forall (fun a => a ≠ NUL)
         (list_ascii_of_string (stripTrailingLineFeeds s)).
Proof.
  intros Hall. destruct (strip_tail s) as [n Hs].
  rewrite Hs, list_ascii_app in Hall. by apply Forall_app in Hall as [? _].
Qed.

(** X5. Reading the diff with [$(cat diff.txt)] passes over the NUL bytes
    of the file and removes the line feeds at the end of what is left, and
    nothing else: the file without its NUL bytes is what was read followed
    by line feeds only; what was read holds no NUL and does not end in a
    line feed; reading it again changes nothing; and a file of line feeds
    alone reads as the empty log. *)
Theorem commandSubstitution_strips_trailing_line_feeds (out : string) :
  (∃ n, dropNul out = commandSubstitution out
                        ++ string_of_list_ascii (replicate n LF))
  ∧ Forall (fun a => a ≠ NUL)
           (list_ascii_of_string (commandSubstitution out))
  ∧ (∀ kept, commandSubstitution out ≠ kept ++ String LF EmptyString)
  ∧ commandSubstitution (commandSubstitution out) = commandSubstitution out
  ∧ (∀ n, commandSubstitution (string_of_list_ascii (replicate n LF))
            = EmptyString).
Proof.
  unfold commandSubstitution.
  split; [apply strip_tail |].
  split; [apply strip_no_nul, dropNul_no_nul |].
  split; [apply strip_no_trailing |]. split.
  - rewrite (dropNul_fixed (stripTrailingLineFeeds (dropNul out)))
      by apply strip_no_nul, dropNul_no_nul.
    apply strip_fixed, strip_no_trailing.
  - intros n. induction n as [| n IH]; [reflexivity |].
    simpl string_of_list_ascii. simpl dropNul. rewrite strip_cons.
    by rewrite decide_True.
Qed.

(** ** Environment tables of all functions *)

Lemma family_functions_env (cfg : Configs) (fam : Family) (id : string)
    (props : FunctionsProps) :
  Forall (fun f => Lambda.env f
                   = env_of_shape cfg props (shape_of_name (fn_name f)))
         (family_functions cfg fam id props).
Proof.
  destruct fam; repeat (apply Forall_cons; split); try apply Forall_nil;
    reflexivity.
Qed.

(** X7. The environment of every function of every class is one of four
    tables, fixed by the function: post and patch course review hold the
    supplied variables and the service-account credential, the two status
    publishers hold the webhook address and nothing else, import and export
    timetable and the sign-up validator hold nothing whatever is supplied,
    and every other function holds exactly the supplied variables. *)
Theorem environment_of_every_function (cfg : Configs) (fam : Family)
    (id : string) (props : FunctionsProps) :
  Forall (fun f => Lambda.env f
                   = env_of_shape cfg props (shape_of_name (fn_name f)))
         (family_functions cfg fam id props)
  ∧ map (fun f => shape_of_name (fn_name f))
        (family_functions cfg fam id props)
    = match fam with
      | CourseReviewsF =>
          [SuppliedOnly; SuppliedAndCredential; SuppliedAndCredential;
           SuppliedOnly]
      | SyllabusScraperF | SyllabusF => [SuppliedOnly]
      | AmplifyStatusPublisherF | ScraperStatusPublisherF => [WebhookOnly]
      | PreSignupWasedaMailValidatorF => [NoVariables]
      | TimetableF =>
          [SuppliedOnly; SuppliedOnly; SuppliedOnly; NoVariables;
           NoVariables]
      end.
Proof.
  split; [apply family_functions_env |]. destruct fam; reflexivity.
Qed.

Lemma shape_credential (cfg : Configs) (props : FunctionsProps)
    (name : string) :
  envVars props !! credentialKey = None →
  is_Some (env_of_shape cfg props (shape_of_name name) !! credentialKey) →
  name ∈ ["post-course-review"; "patch-course-review"].
Proof.
  intros Hnone. unfold shape_of_name.
  case_bool_decide as Hpost; [done |].
  case_bool_decide; [| case_bool_decide]; cbn [env_of_shape].
  - rewrite lookup_singleton_ne by discriminate. by intros [? ?].
  - rewrite lookup_empty. by intros [? ?].
  - rewrite lookup_fmap, Hnone. by intros [? ?].
Qed.

Lemma shape_webhook (cfg : Configs) (props : FunctionsProps)
    (name : string) :
  envVars props !! "SLACK_WEBHOOK_URL" = None →
  is_Some (env_of_shape cfg props (shape_of_name name) !! "SLACK_WEBHOOK_URL") →
  name ∈ ["amplify-status-publisher"; "scraper-status-publisher"].
Proof.
  intros Hnone. unfold shape_of_name.
  case_bool_decide; [| case_bool_decide as Hpub; [done | case_bool_decide]];
    cbn [env_of_shape].
  - rewrite lookup_insert_ne by discriminate.
    rewrite lookup_fmap, Hnone. by intros [? ?].
  - rewrite lookup_empty. by intros [? ?].
  - rewrite lookup_fmap, Hnone. by intros [? ?].
Qed.

(** X8. The secrets stay where they are needed.  When the caller does not
    pass the keys himself, the service-account credential is in the
    environment of post and patch course review and of no other function
    of any class, and the webhook address is in the environment of the two
    status publishers and of no other function. *)
Theorem secrets_confined (cfg : Configs) (fam : Family) (id : string)
    (props : FunctionsProps) :
  envVars props !! credentialKey = None →
  envVars props !! "SLACK_WEBHOOK_URL" = None →
  Forall (fun f =>
            (is_Some (Lambda.env f !! credentialKey) ↔
               fn_name f ∈ ["post-course-review"; "patch-course-review"])
            ∧ (is_Some (Lambda.env f !! "SLACK_WEBHOOK_URL") ↔
               fn_name f ∈ ["amplify-status-publisher";
                            "scraper-status-publisher"]))
         (family_functions cfg fam id props).
Proof.
  intros Hcred Hhook.
  eapply Forall_impl; [apply family_functions_env |].
  intros f Henv. cbn beta in Henv. rewrite Henv. split; split.
  - by apply shape_credential.
  - intros Hin. unfold shape_of_name. rewrite bool_decide_eq_true_2 by done.
    cbn [env_of_shape]. rewrite lookup_insert_eq. by eexists.
  - by apply shape_webhook.
  - intros Hin. unfold shape_of_name.
    rewrite bool_decide_eq_false_2.
    + rewrite bool_decide_eq_true_2 by done. cbn [env_of_shape].
      rewrite lookup_singleton_eq. by eexists.
    + intros Hpost. rewrite !elem_of_cons, elem_of_nil in Hin.
      destruct Hin as [Hn | [Hn | []]]; rewrite Hn in Hpost;
        rewrite !elem_of_cons, elem_of_nil in Hpost;
        by destruct Hpost as [? | [? | []]].
Qed.

Lemma secrets_confined_witness :
  Forall (fun f =>
            (is_Some (Lambda.env f !! credentialKey) ↔
               fn_name f ∈ ["post-course-review"; "patch-course-review"])
            ∧ (is_Some (Lambda.env f !! "SLACK_WEBHOOK_URL") ↔
               fn_name f ∈ ["amplify-status-publisher";
                            "scraper-status-publisher"]))
         (family_functions suppliedConfigs CourseReviewsF
            "course-reviews-functions" tableVars).
Proof.
  apply (secrets_confined suppliedConfigs CourseReviewsF
           "course-reviews-functions" tableVars); reflexivity.
Defined.

(** ** The tree and the fields *)

(** X9. [addEnvironment] writes through to the construct tree: in the
    classes that call it, the functions registered in the tree are the
    very functions held in the fields, in the order of construction, so the
    tree shows the credential and the webhook as the fields do. *)
Theorem tree_holds_the_fields (cfg : Configs) (id : string)
    (props : FunctionsProps) (optProps : option FunctionsProps) :
  (∃ obj sc get post patch del,
      instantiate (CourseReviewsFunctions cfg id props) = Ok (obj, sc)
      ∧ CourseReviews.getFunction obj = Some get
      ∧ CourseReviews.postFunction obj = Some post
      ∧ CourseReviews.patchFunction obj = Some patch
      ∧ CourseReviews.deleteFunction obj = Some del
      ∧ functions_of sc = [get; post; patch; del]
      ∧ map Lambda.fnId [get; post; patch; del]
          = ["get-reviews"; "post-review"; "patch-review"; "delete-review"])
  ∧ (∃ obj sc base,
      instantiate (AmplifyStatusPublisher cfg id optProps) = Ok (obj, sc)
      ∧ Single.baseFunction obj = Some base
      ∧ sc = [("base-function", FunctionC base)])
  ∧ (∃ obj sc base,
      instantiate (ScraperStatusPublisher cfg id optProps) = Ok (obj, sc)
      ∧ Single.baseFunction obj = Some base
      ∧ sc = [("base-function", FunctionC base)]).
Proof.
  split; [| split].
  - do 6 eexists. split; [reflexivity |]. repeat split; reflexivity.
  - do 3 eexists. split; [reflexivity |]. repeat split; reflexivity.
  - do 3 eexists. split; [reflexivity |]. repeat split; reflexivity.
Qed.

(** ** Roles and names *)

Lemma family_roles_same (cfg cfg' : Configs) (fam : Family)
    (id id' : string) (props props' : FunctionsProps) :
  AwsServicePrincipal_LAMBDA cfg = AwsServicePrincipal_LAMBDA cfg' →
  family_roles cfg fam id props = family_roles cfg' fam id' props'.
Proof.
  destruct cfg as [principal google slack],
           cfg' as [principal' google' slack'].
  simpl. intros <-. destruct fam; reflexivity.
Qed.

(** X10. The roles and the function names of a class depend on nothing but
    the service principal: neither the construct id, nor the supplied
    variables, nor the secrets change them.  Hence a class instantiated a
    second time, under whatever other id, is constructed with role names
    that its first instance has already taken. *)
Theorem roles_independent_of_instance (cfg cfg' : Configs) (fam : Family)
    (id id' : string) (props props' : FunctionsProps) :
  AwsServicePrincipal_LAMBDA cfg = AwsServicePrincipal_LAMBDA cfg' →
  family_roles cfg fam id props = family_roles cfg' fam id' props'
  ∧ map fn_name (family_functions cfg fam id props)
      = map fn_name (family_functions cfg' fam id' props')
  ∧ (family_roles cfg fam id props ≠ [] →
     ¬ NoDup (map Iam.roleName
                (family_roles cfg fam id props
                   ++ family_roles cfg' fam id' props'))).
Proof.
  intros Hsame. split; [by apply family_roles_same |].
  split; [destruct fam; reflexivity |].
  rewrite <- (family_roles_same cfg cfg' fam id id' props props' Hsame).
  destruct (family_roles cfg fam id props) as [| r roles]; [done |].
  intros _ Hnodup. rewrite map_app in Hnodup.
  apply NoDup_app in Hnodup as (_ & Hdisj & _).
  apply (Hdisj (Iam.roleName r)); simpl; apply list_elem_of_here.
Qed.

Lemma roles_independent_of_instance_witness :
  family_roles suppliedConfigs TimetableF "timetable-functions" tableVars
    = family_roles bareConfigs TimetableF "timetable-again" noVars.
Proof.
  apply (roles_independent_of_instance suppliedConfigs bareConfigs
           TimetableF "timetable-functions" "timetable-again" tableVars
           noVars).
  reflexivity.
Defined.

(** X11. With every class instantiated once, whatever the ids and props,
    the fourteen functions carry fourteen different function names. *)
Theorem function_names_pairwise_distinct (cfg : Configs)
    (args : Family → string * FunctionsProps) :
  length (deployment_functions cfg args) = 14%nat
  ∧ NoDup (map fn_name (deployment_functions cfg args)).
Proof.
  split; [reflexivity |].
  assert (Hnames : map fn_name (deployment_functions cfg args)
    = ["get-course-reviews"; "post-course-review"; "patch-course-review";
       "delete-course-review"; "syllabus-scraper";
       "amplify-status-publisher"; "scraper-status-publisher";
       "wasedamail-signup-validator"; "get-timetable"; "post-timetable";
       "patch-timetable"; "import-timetable"; "export-timetable";
       "get-courses"]) by reflexivity.
  rewrite Hnames. apply (bool_decide_unpack _). vm_compute. exact I.
Qed.

Lemma Forall_deployment {A} (P : A → Prop) (per : Family → list A) :
  (∀ fam, Forall P (per fam)) → Forall P (concat (map per families)).
Proof.
  intros Hall. apply Forall_concat, Forall_map, Forall_forall.
  intros fam _. apply Hall.
Qed.

(** X12. Every role of every class is assumed by the Lambda service
    principal of the configuration and lives under the path
    [/service-role/<principal>/] of that same principal. *)
Theorem roles_assumed_by_lambda (cfg : Configs)
    (args : Family → string * FunctionsProps) :
  Forall (fun r =>
            Iam.assumedBy r = AwsServicePrincipal_LAMBDA cfg
            ∧ Iam.path r = "/service-role/" ++ Iam.assumedBy r ++ "/")
         (deployment_roles cfg args).
Proof.
  apply Forall_deployment. intros fam.
  destruct fam; repeat (apply Forall_cons; split); try apply Forall_nil;
    split; reflexivity.
Qed.

(** X13. A function is bound only to a role of its own class: the role of
    every function is one of the roles that the same constructor built, so
    no role is shared between classes. *)
Theorem bound_role_is_own_role (cfg : Configs) (fam : Family) (id : string)
    (props : FunctionsProps) :
  Forall (fun f => match fn_role f with
                   | Some r => r ∈ family_roles cfg fam id props
                   | None => True
                   end)
         (family_functions cfg fam id props).
Proof.
  destruct fam; repeat (apply Forall_cons; split); try apply Forall_nil;
    first [ exact I
          | solve [eapply (list_elem_of_lookup_2 _ 0%nat); reflexivity]
          | solve [eapply (list_elem_of_lookup_2 _ 1%nat); reflexivity] ].
Qed.

Lemma family_functions_resources (cfg : Configs) (fam : Family)
    (id : string) (props : FunctionsProps) :
  forallb (fun f =>
             (128 <=? fn_memory f)%Z && (fn_memory f <=? 4096)%Z
             && (fn_memory f mod 128 =? 0)%Z
             && (3 <=? timeout_seconds f)%Z && (timeout_seconds f <=? 210)%Z
             && (String.eqb (fn_name f) "syllabus-scraper"
                 || ((fn_memory f <=? 512)%Z
                     && (timeout_seconds f <=? 5)%Z)))
          (family_functions cfg fam id props) = true.
Proof. destruct fam; reflexivity. Qed.

(** X14. Every function of every class has between 128 and 4096 MB of
    memory, a multiple of 128, and a timeout between 3 and 210 seconds;
    every function other than the syllabus scraper stays within 512 MB and
    5 seconds. *)
Theorem resources_within_bounds (cfg : Configs) (fam : Family) (id : string)
    (props : FunctionsProps) :
  Forall (fun f =>
            (128 ≤ fn_memory f ≤ 4096)%Z
            ∧ (fn_memory f mod 128 = 0)%Z
            ∧ (3 ≤ timeout_seconds f ≤ 210)%Z
            ∧ (fn_name f = "syllabus-scraper"
               ∨ (fn_memory f ≤ 512 ∧ timeout_seconds f ≤ 5)%Z))
         (family_functions cfg fam id props).
Proof.
  apply Forall_forall. intros f Hf. apply list_elem_of_In in Hf.
  pose proof (proj1 (forallb_forall _ _)
                (family_functions_resources cfg fam id props) f Hf) as Hok.
  repeat (apply andb_prop in Hok as [Hok ?]).
  repeat split; try lia.
  match goal with
  | H : _ || _ = true |- _ => apply orb_prop in H as [H | H]
  end.
  - left. by apply string_eqb_true.
  - right. lia.
Qed.

Lemma family_functions_packaging (cfg : Configs) (fam : Family)
    (id : string) (props : FunctionsProps) :
  forallb (fun f =>
             has_prefix "src/lambda/" (code_dir f)
             && match Lambda.code (Lambda.props f) with
                | entry _ =>
                    bool_decide (Lambda.runtime (Lambda.props f) = PYTHON_3_8)
                    && bool_decide (Lambda.handler (Lambda.props f) = None)
                | Code_fromAsset _ =>
                    bool_decide (Lambda.handler (Lambda.props f)
                                 = Some "index.handler")
                end)
          (family_functions cfg fam id props) = true.
Proof. destruct fam; reflexivity. Qed.

(** X15. The code of every function lies under [src/lambda/].  Every
    [PythonFunction] (an [entry] directory) runs on the Python runtime and
    names no handler, and every plain [Function] (an asset directory) names
    the handler [index.handler]. *)
Theorem packaging_of_every_function (cfg : Configs) (fam : Family)
    (id : string) (props : FunctionsProps) :
  Forall (fun f =>
            has_prefix "src/lambda/" (code_dir f) = true
            ∧ match Lambda.code (Lambda.props f) with
              | entry _ =>
                  Lambda.runtime (Lambda.props f) = PYTHON_3_8
                  ∧ Lambda.handler (Lambda.props f) = None
              | Code_fromAsset _ =>
                  Lambda.handler (Lambda.props f) = Some "index.handler"
              end)
         (family_functions cfg fam id props).
Proof.
  apply Forall_forall. intros f Hf. apply list_elem_of_In in Hf.
  pose proof (proj1 (forallb_forall _ _)
                (family_functions_packaging cfg fam id props) f Hf) as Hok.
  apply andb_prop in Hok as [Hdir Hkind]. split; [exact Hdir |].
  destruct (Lambda.code (Lambda.props f)).
  - by apply bool_decide_eq_true in Hkind.
  - apply andb_prop in Hkind as [Hrun Hnone].
    split; by eapply bool_decide_eq_true.
Qed.

(** ** Micro-app specifications *)

(** X16. The specification of a micro-app holds one application, rooted at
    the application's name, in either mode; the specifications of two
    names therefore differ. *)
Theorem microAppSpec_names_its_application (sec cors : list BuildSpec.Header)
    (mode : BuildMode) (name other : string) :
  appRoots (microAppSpec sec cors mode name) = [name]
  ∧ length (BuildSpec.frontends (microAppSpec sec cors mode name)) = 1%nat
  ∧ (microAppSpec sec cors mode name = microAppSpec sec cors mode other →
     name = other).
Proof.
  split; [by destruct mode |]. split; [by destruct mode |].
  intros Heq. apply (f_equal appRoots) in Heq.
  destruct mode; simpl in Heq; by injection Heq.
Qed.

Lemma microAppSpec_names_its_application_witness :
  appRoots (microAppSpec sampleSecurityHeaders sampleCorsHeader production
              "feeds") = ["feeds"]
  ∧ "feeds" = "feeds".
Proof.
  split; [reflexivity |].
  apply (microAppSpec_names_its_application sampleSecurityHeaders
           sampleCorsHeader production "feeds" "feeds").
  reflexivity.
Defined.

(** X17. For every name, the production pre-build ends with the commands of
    the development pre-build, the two install commands; what stands before
    them is submodule commands only, and there are none exactly when the
    name is not feeds.  Artifacts and cache are the same in both modes. *)
Theorem prod_prebuild_extends_dev (sec cors : list BuildSpec.Header)
    (name : string) :
  (∃ sync,
      BuildSpec.preBuildCommands (microAppSpec sec cors production name)
        = (sync ++ BuildSpec.preBuildCommands
                     (microAppSpec sec cors development name))%list
      ∧ Forall (fun c => isSubmoduleSync c = true) sync
      ∧ (sync = [] ↔ name ≠ "feeds"))
  ∧ map BuildSpec.artifacts
        (BuildSpec.frontends (microAppSpec sec cors production name))
    = map BuildSpec.artifacts
        (BuildSpec.frontends (microAppSpec sec cors development name))
  ∧ map BuildSpec.cache
        (BuildSpec.frontends (microAppSpec sec cors production name))
    = map BuildSpec.cache
        (BuildSpec.frontends (microAppSpec sec cors development name)).
Proof.
  split; [| split; reflexivity].
  unfold microAppSpec.
  rewrite microApp_preBuildCommands, microAppDev_preBuildCommands.
  destruct (String.eqb name "feeds") eqn:Hname.
  - apply string_eqb_true in Hname.
    exists (take 4 (BuildSpec.commands preBuildForFeeds)).
    split; [reflexivity |]. split.
    + repeat constructor.
    + split; [discriminate | by intros Hne].
  - apply string_eqb_false in Hname. exists []. split; [reflexivity |].
    split; [constructor | done].
Qed.

(** X18. In every micro-app specification, of either mode and any name,
    pnpm is installed before it is used: every command that runs pnpm
    stands, in the order pre-build then build, after the command
    [npm install -g pnpm]. *)
Theorem pnpm_installed_before_use (sec cors : list BuildSpec.Header)
    (mode : BuildMode) (name : string) :
  ∃ k,
    allCommands (microAppSpec sec cors mode name) !! k
      = Some "npm install -g pnpm"
    ∧ Forall (fun c => usesPnpm c = false)
             (take (S k) (allCommands (microAppSpec sec cors mode name)))
    ∧ existsb usesPnpm
        (drop (S k) (allCommands (microAppSpec sec cors mode name))) = true.
Proof.
  destruct mode.
  - assert (Hcmds : allCommands (microAppSpec sec cors production name)
      = (BuildSpec.commands
           (if String.eqb name "feeds" then preBuildForFeeds else preBuild)
         ++ BuildSpec.commands prodBuild)%list).
    { unfold allCommands. cbn. by rewrite app_nil_r. }
    rewrite Hcmds. destruct (String.eqb name "feeds").
    + exists 4%nat. split; [reflexivity |].
      split; [repeat constructor | reflexivity].
    + exists 0%nat. split; [reflexivity |].
      split; [repeat constructor | reflexivity].
  - exists 0%nat. split; [reflexivity |].
    split; [repeat constructor | reflexivity].
Qed.

(** X19. The development headers of a micro-app are always among its
    production headers, and the production headers are all among the
    development headers exactly when every security header is itself a
    CORS header: only then do the two modes send the same set. *)
Theorem micro_app_headers_compared (sec cors : list BuildSpec.Header)
    (name : string) :
  header_subset
    (BuildSpec.responseHeaders (microAppSpec sec cors development name))
    (BuildSpec.responseHeaders (microAppSpec sec cors production name))
  ∧ (header_subset
       (BuildSpec.responseHeaders (microAppSpec sec cors production name))
       (BuildSpec.responseHeaders (microAppSpec sec cors development name))
     ↔ header_subset sec cors)
  ∧ BuildSpec.responseHeaders (microAppSpec sec cors production name)
    = (sec ++ BuildSpec.responseHeaders
                (microAppSpec sec cors development name))%list.
Proof.
  unfold microAppSpec.
  rewrite microAppDev_responseHeaders, microApp_responseHeaders.
  split; [| split; [| reflexivity]].
  - intros h Hh. apply elem_of_app. by right.
  - split.
    + intros Hback h Hh. apply Hback, elem_of_app. by left.
    + intros Hsec h Hh. apply elem_of_app in Hh as [Hh | Hh];
        [by apply Hsec | assumption].
Qed.

(** ** The access token *)

(** X20. [bitToken] is the value of [BIT_TOKEN] and of no other variable:
    setting [BIT_TOKEN] makes it that string, setting or removing any other
    variable leaves it as it was, and it is undefined exactly when
    [BIT_TOKEN] is not set. *)
Theorem bitToken_reads_BIT_TOKEN (env : process_env) (k v : string) :
  bitToken (<["BIT_TOKEN" := v]> env) = Str v
  ∧ (k ≠ "BIT_TOKEN" →
     bitToken (<[k := v]> env) = bitToken env
     ∧ bitToken (delete k env) = bitToken env)
  ∧ (bitToken env = Undefined ↔ env !! "BIT_TOKEN" = None).
Proof.
  unfold bitToken, getenv, process_env in *. split; [| split].
  - by rewrite lookup_insert_eq.
  - intros Hne. by rewrite lookup_insert_ne, lookup_delete_ne.
  - destruct (env !! "BIT_TOKEN"); split; done.
Qed.

Lemma bitToken_reads_BIT_TOKEN_witness :
  bitToken (<["AWS_REGION" := "ap-northeast-1"]> {[ "BIT_TOKEN" := "t0ken" ]})
    = Str "t0ken".
Proof.
  destruct (bitToken_reads_BIT_TOKEN {[ "BIT_TOKEN" := "t0ken" ]}
              "AWS_REGION" "ap-northeast-1") as (_ & Hother & _).
  destruct Hother as [Hset _]; [discriminate |].
  rewrite Hset. reflexivity.
Defined.
